(** * Recipient resolution and trigger dispatch

    A shallow embedding of [apps/api/src/app/events/events.controller.ts]:
    the [EventsController] class (trigger, broadcast trigger and the private
    recipient helpers) and the [MapTriggerRecipients] use case that follows
    it in the same file.

    JavaScript values are a small inductive type, the asynchronous,
    exception-raising methods live in a state-and-exception monad over a
    record of call logs, and the injected collaborators are records of
    functions from their own call history to a settled promise.  A handler
    attached with [.catch] is not run by the method that attaches it: it is
    recorded as a pending reaction, for the event loop to run later. *)

From Stdlib Require Import List String ZArith Bool Lia.
From Stdlib Require Import Permutation.
Import ListNotations.
#[local] Set Warnings "-register-all".
#[local] Set Warnings "-automation".
#[local] Set Warnings "-default".
Open Scope string_scope.
Open Scope list_scope.

(** ** JavaScript values *)

Module Js.

(** The values a parsed request body can hold.  Numbers are kept to the
    integers: no claim reads a number, only its truthiness. *)
Inductive value : Type :=
  | Undefined
  | Null
  | Bool (b : bool)
  | Num (z : Z)
  | Str (s : string)
  | Obj (fields : list (string * value))
  | Arr (items : list value).

(** [Array.isArray(v)] *)
Definition isArray (v : value) : bool :=
  match v with Arr _ => true | _ => false end.

(** [typeof v === 'string'] *)
Definition isString (v : value) : bool :=
  match v with Str _ => true | _ => false end.

(** [!!v] *)
Definition truthy (v : value) : bool :=
  match v with
  | Undefined | Null => false
  | Bool b => b
  | Num z => negb (z =? 0)%Z
  | Str s => negb (s =? "")
  | Obj _ | Arr _ => true
  end.

(** [a || b], for an operand [b] that has no effect *)
Definition or (a b : value) : value := if truthy a then a else b.

(** Own property of an object literal. *)
Fixpoint assoc (k : string) (fields : list (string * value)) : value :=
  match fields with
  | [] => Undefined
  | (k', v) :: rest => if (k =? k') then v else assoc k rest
  end.

(** [v?.k] for the property names the code reads, [type] and [topicId]:
    no string, number, boolean or array has them, and the optional chain
    turns [null] and [undefined] into [undefined]. *)
Definition get (v : value) (k : string) : value :=
  match v with
  | Obj fields => assoc k fields
  | _ => Undefined
  end.

(** [v === s] for a string constant [s] *)
Definition eqStr (v : value) (s : string) : bool :=
  match v with Str s' => (s' =? s) | _ => false end.

End Js.

(** ** Commands and DTOs *)

Module IJwtPayload.
Record t := { _id : string; environmentId : string; organizationId : string }.
End IJwtPayload.

Module TriggerEventRequestDto.
Record t := {
  name : Js.value;
  payload : Js.value;
  overrides : Js.value;
  to : Js.value;
  actor : Js.value;
  transactionId : Js.value
}.
End TriggerEventRequestDto.

Module TriggerEventToAllRequestDto.
Record t := {
  name : Js.value;
  payload : Js.value;
  overrides : Js.value;
  actor : Js.value;
  transactionId : Js.value
}.
End TriggerEventToAllRequestDto.

(** The [create] factories of the command classes are taken as plain record
    construction. *)
Module TriggerEventCommand.
Record t := create {
  userId : string;
  environmentId : string;
  organizationId : string;
  identifier : Js.value;
  payload : Js.value;
  overrides : Js.value;
  to : list Js.value;
  actor : Js.value;
  transactionId : Js.value
}.
End TriggerEventCommand.

Module TriggerEventToAllCommand.
Record t := create {
  userId : string;
  environmentId : string;
  organizationId : string;
  identifier : Js.value;
  payload : Js.value;
  transactionId : Js.value;
  overrides : Js.value;
  actor : Js.value
}.
End TriggerEventToAllCommand.

Module MapTriggerRecipientsCommand.
Record t := create {
  environmentId : string;
  organizationId : string;
  recipients : Js.value;
  transactionId : string;
  userId : string
}.
End MapTriggerRecipientsCommand.

Module GetTopicSubscribersCommand.
Record t := create {
  environmentId : string;
  topicId : Js.value;
  organizationId : string;
  userId : string
}.
End GetTopicSubscribersCommand.

Module CreateLogCommand.
Record t := create {
  transactionId : string;
  status : string;
  environmentId : string;
  organizationId : string;
  text : string;
  userId : string;
  code : string;
  raw : Js.value
}.
End CreateLogCommand.

Module ILogTopicSubscribersPayload.
Record t := {
  environmentId : string;
  organizationId : string;
  topicId : Js.value;
  transactionId : string;
  userId : string
}.
End ILogTopicSubscribersPayload.

(** Modelled from the spec: the response type of the topic resolver is
    declared outside this file; the resolver "returns member subscriber
    ids", a sequence of strings. *)
Module TopicSubscribersResponse.
Record t := { subscribers : list string }.
End TopicSubscribersResponse.

(** ** Settled promises and the collaborators *)

(** How a call ends: with a value, or with a thrown (rejected) one. *)
Inductive Completion (A : Type) : Type :=
| Normal (a : A)
| Throw (error : Js.value).
Arguments Normal {A} a.
Arguments Throw {A} error.

Definition isThrow {A} (c : Completion A) : bool :=
  match c with Throw _ => true | Normal _ => false end.

(** What the two methods of [TriggerEvent] have been called with. *)
Inductive TriggerEventCall : Type :=
| CallValidate (transactionId : Js.value) (organizationId environmentId : string)
| CallExecute (command : TriggerEventCommand.t).

(** A collaborator answers from the calls it has received so far and the
    present one; any deterministic stateful behaviour has this shape.  In
    these records every call returns a promise: a failure is a rejected
    promise, here a [Throw] answer.  A log sink whose call can itself raise
    is [CreateLogCall.t], further down. *)
Module TriggerEvent.
Record t := {
  validateTransactionIdProperty :
    list TriggerEventCall -> Js.value -> string -> string -> Completion unit;
  execute : list TriggerEventCall -> TriggerEventCommand.t -> Completion Js.value
}.
End TriggerEvent.

Module TriggerEventToAll.
Record t := {
  execute :
    list TriggerEventToAllCommand.t -> TriggerEventToAllCommand.t -> Completion Js.value
}.
End TriggerEventToAll.

Module GetTopicSubscribersUseCase.
Record t := {
  execute :
    list GetTopicSubscribersCommand.t -> GetTopicSubscribersCommand.t ->
    Completion TopicSubscribersResponse.t
}.
End GetTopicSubscribersUseCase.

Module CreateLog.
Record t := {
  execute : list CreateLogCommand.t -> CreateLogCommand.t -> Completion unit
}.
End CreateLog.

(** ** The world: one call log per collaborator *)

(** A reaction attached to a promise and not yet run.  The one handler the
    code attaches is [(e) => console.error(e)], with [.catch]. *)
Inductive Reaction : Type :=
| CatchConsoleError (promise : Completion unit).

Record World := mkWorld {
  uuidLog : list string;
  triggerEventLog : list TriggerEventCall;
  triggerEventToAllLog : list TriggerEventToAllCommand.t;
  getTopicSubscribersLog : list GetTopicSubscribersCommand.t;
  createLogLog : list CreateLogCommand.t;
  consoleLog : list Js.value;
  reactions : list Reaction
}.

Definition emptyWorld : World := mkWorld [] [] [] [] [] [] [].

(** ** The monad of async methods *)

Definition Async (A : Type) : Type := World -> Completion A * World.

Definition ret {A} (a : A) : Async A := fun w => (Normal a, w).

Definition bind {A B} (m : Async A) (f : A -> Async B) : Async B :=
  fun w =>
    match m w with
    | (Normal a, w') => f a w'
    | (Throw e, w') => (Throw e, w')
    end.

(** [try { m } catch (error) { h error }] *)
Definition tryCatch {A} (m : Async A) (h : Js.value -> Async A) : Async A :=
  fun w =>
    match m w with
    | (Normal a, w') => (Normal a, w')
    | (Throw e, w') => h e w'
    end.

(** [await p] on a settled promise *)
Definition await {A} (p : Completion A) : Async A := fun w => (p, w).

Declare Scope async_scope.
Delimit Scope async_scope with async.
Notation "x <- m ;; k" := (bind m (fun x => k))
  (at level 100, m at next level, right associativity) : async_scope.
Notation "m ;;; k" := (bind m (fun _ => k))
  (at level 100, right associativity) : async_scope.
Open Scope async_scope.

(** *** The calls *)

Definition callValidate (triggerEvent : TriggerEvent.t)
    (transactionId : Js.value) (organizationId environmentId : string)
  : Async (Completion unit) :=
  fun w =>
    (Normal (TriggerEvent.validateTransactionIdProperty triggerEvent
               (triggerEventLog w) transactionId organizationId environmentId),
     mkWorld (uuidLog w)
             (triggerEventLog w ++ [CallValidate transactionId organizationId environmentId])
             (triggerEventToAllLog w) (getTopicSubscribersLog w)
             (createLogLog w) (consoleLog w) (reactions w)).

Definition callTriggerEvent (triggerEvent : TriggerEvent.t)
    (command : TriggerEventCommand.t) : Async (Completion Js.value) :=
  fun w =>
    (Normal (TriggerEvent.execute triggerEvent (triggerEventLog w) command),
     mkWorld (uuidLog w) (triggerEventLog w ++ [CallExecute command])
             (triggerEventToAllLog w) (getTopicSubscribersLog w)
             (createLogLog w) (consoleLog w) (reactions w)).

Definition callTriggerEventToAll (triggerEventToAll : TriggerEventToAll.t)
    (command : TriggerEventToAllCommand.t) : Async (Completion Js.value) :=
  fun w =>
    (Normal (TriggerEventToAll.execute triggerEventToAll (triggerEventToAllLog w) command),
     mkWorld (uuidLog w) (triggerEventLog w)
             (triggerEventToAllLog w ++ [command]) (getTopicSubscribersLog w)
             (createLogLog w) (consoleLog w) (reactions w)).

Definition callGetTopicSubscribers (getTopicSubscribers : GetTopicSubscribersUseCase.t)
    (command : GetTopicSubscribersCommand.t)
  : Async (Completion TopicSubscribersResponse.t) :=
  fun w =>
    (Normal (GetTopicSubscribersUseCase.execute getTopicSubscribers
               (getTopicSubscribersLog w) command),
     mkWorld (uuidLog w) (triggerEventLog w) (triggerEventToAllLog w)
             (getTopicSubscribersLog w ++ [command])
             (createLogLog w) (consoleLog w) (reactions w)).

Definition callCreateLog (createLog : CreateLog.t) (command : CreateLogCommand.t)
  : Async (Completion unit) :=
  fun w =>
    (Normal (CreateLog.execute createLog (createLogLog w) command),
     mkWorld (uuidLog w) (triggerEventLog w) (triggerEventToAllLog w)
             (getTopicSubscribersLog w)
             (createLogLog w ++ [command]) (consoleLog w) (reactions w)).

(** [p.catch((e) => console.error(e))], not awaited and not returned: the
    handler is attached and the method goes on.  Nothing is printed at this
    point, and nothing comes back to the caller. *)
Definition catchWithConsoleError (p : Completion unit) : Async unit :=
  fun w =>
    (Normal tt,
     mkWorld (uuidLog w) (triggerEventLog w) (triggerEventToAllLog w)
             (getTopicSubscribersLog w) (createLogLog w) (consoleLog w)
             (reactions w ++ [CatchConsoleError p])).



(** ** [EventsController] *)

Module EventsController.

Record t := {
  triggerEvent : TriggerEvent.t;
  triggerEventToAll : TriggerEventToAll.t
}.

Section Methods.

(** [TriggerRecipientsTypeEnum.SUBSCRIBER], declared in [@novu/shared]. *)
Variable SUBSCRIBER : string.

(** [uuidv4] of the [uuid] package: the next identifier, given those
    already handed out. *)
Variable uuidv4 : list string -> string.

Definition callUuidv4 : Async Js.value :=
  fun w =>
    let id := uuidv4 (uuidLog w) in
    (Normal (Js.Str id),
     mkWorld (uuidLog w ++ [id]) (triggerEventLog w) (triggerEventToAllLog w)
             (getTopicSubscribersLog w) (createLogLog w) (consoleLog w) (reactions w)).

(** [body.transactionId || uuidv4()]: the right operand runs only when the
    left one is falsy. *)
Definition transactionIdOrFresh (transactionId : Js.value) : Async Js.value :=
  if Js.truthy transactionId then ret transactionId else callUuidv4.

Definition aggregateSubscribers (body : TriggerEventRequestDto.t) : list Js.value :=
  let to :=
    match TriggerEventRequestDto.to body with
    | Js.Arr items => items
    | single => [single]
    end in
  filter
    (fun element =>
       if Js.isString element || negb (Js.truthy (Js.get element "type"))
       then true
       else Js.eqStr (Js.get element "type") SUBSCRIBER)
    to.

Definition mapSubscriber (subscriber : Js.value) : Js.value :=
  if Js.isString subscriber
  then Js.Obj [("subscriberId", subscriber)]
  else subscriber.

Definition mapSubscribers (subscribers : list Js.value) : list Js.value :=
  map mapSubscriber subscribers.

Definition mapActor (actor : Js.value) : Js.value :=
  if negb (Js.truthy actor) then Js.Undefined else mapSubscriber actor.

Definition trackEvent (this : t) (user : IJwtPayload.t)
    (body : TriggerEventRequestDto.t) : Async Js.value :=
  transactionId <- transactionIdOrFresh (TriggerEventRequestDto.transactionId body) ;;
  let userId := IJwtPayload._id user in
  let environmentId := IJwtPayload.environmentId user in
  let organizationId := IJwtPayload.organizationId user in
  validated <- callValidate (triggerEvent this) transactionId organizationId environmentId ;;
  await validated ;;;
  let subscribers := aggregateSubscribers body in
  let mappedSubscribers := mapSubscribers subscribers in
  let mappedActor := mapActor (TriggerEventRequestDto.actor body) in
  dispatched <-
    callTriggerEvent (triggerEvent this)
      (TriggerEventCommand.create
         userId environmentId organizationId
         (TriggerEventRequestDto.name body)
         (TriggerEventRequestDto.payload body)
         (Js.or (TriggerEventRequestDto.overrides body) (Js.Obj []))
         mappedSubscribers
         mappedActor
         transactionId) ;;
  result <- await dispatched ;;
  ret result.

Definition trackEventToAll (this : t) (user : IJwtPayload.t)
    (body : TriggerEventToAllRequestDto.t) : Async Js.value :=
  transactionId <- transactionIdOrFresh (TriggerEventToAllRequestDto.transactionId body) ;;
  validated <-
    callValidate (triggerEvent this) transactionId
      (IJwtPayload.organizationId user) (IJwtPayload.environmentId user) ;;
  await validated ;;;
  let mappedActor := mapActor (TriggerEventToAllRequestDto.actor body) in
  dispatched <-
    callTriggerEventToAll (triggerEventToAll this)
      (TriggerEventToAllCommand.create
         (IJwtPayload._id user)
         (IJwtPayload.environmentId user)
         (IJwtPayload.organizationId user)
         (TriggerEventToAllRequestDto.name body)
         (TriggerEventToAllRequestDto.payload body)
         transactionId
         (Js.or (TriggerEventToAllRequestDto.overrides body) (Js.Obj []))
         mappedActor) ;;
  await dispatched.

End Methods.

End EventsController.

(** ** [MapTriggerRecipients] *)

Module MapTriggerRecipients.

Record t := {
  createLog : CreateLog.t;
  getTopicSubscribers : GetTopicSubscribersUseCase.t
}.

Section Methods.

(** [TriggerRecipientsTypeEnum.TOPIC], [LogStatusEnum.ERROR] and
    [LogCodeEnum.TOPIC_SUBSCRIBERS_ERROR], declared in [@novu/shared]. *)
Variable TOPIC : string.
Variable ERROR : string.
Variable TOPIC_SUBSCRIBERS_ERROR : string.

Definition mapSubscriber (subscriber : Js.value) : Js.value :=
  if Js.isString subscriber
  then Js.Obj [("subscriberId", subscriber)]
  else subscriber.

Definition isNotTopic (recipient : Js.value) : bool :=
  Js.isString recipient || negb (Js.eqStr (Js.get recipient "type") TOPIC).

Definition findSubscribers (recipients : list Js.value) : list Js.value :=
  map mapSubscriber (filter isNotTopic recipients).

Definition isTopic (recipient : Js.value) : bool :=
  Js.eqStr (Js.get recipient "type") TOPIC.

Definition findTopics (recipients : list Js.value) : list Js.value :=
  filter isTopic recipients.

Definition logTopicSubscribersError (this : t)
    (payload : ILogTopicSubscribersPayload.t) : Async unit :=
  written <-
    callCreateLog (createLog this)
      (CreateLogCommand.create
         (ILogTopicSubscribersPayload.transactionId payload)
         ERROR
         (ILogTopicSubscribersPayload.environmentId payload)
         (ILogTopicSubscribersPayload.organizationId payload)
         "Failed retrieving topic subscribers"
         (ILogTopicSubscribersPayload.userId payload)
         TOPIC_SUBSCRIBERS_ERROR
         (Js.Obj [("topicId", ILogTopicSubscribersPayload.topicId payload)])) ;;
  catchWithConsoleError written.

(** The body of [for (const topic of topics)], with the array
    [topicSubscribers] passed along.  The pushes follow the [await]: when
    the catch block runs, nothing has been pushed for this topic. *)
Fixpoint forOfTopics (this : t)
    (transactionId environmentId organizationId userId : string)
    (topics : list Js.value) (topicSubscribers : list Js.value)
  : Async (list Js.value) :=
  match topics with
  | [] => ret topicSubscribers
  | topic :: rest =>
      pushed <-
        tryCatch
          (let getTopicSubscribersCommand :=
             GetTopicSubscribersCommand.create
               environmentId
               (Js.or (Js.get topic "topicId") (Js.Str ""))
               organizationId
               userId in
           answered <-
             callGetTopicSubscribers (getTopicSubscribers this)
               getTopicSubscribersCommand ;;
           response <- await answered ;;
           let subscribers := TopicSubscribersResponse.subscribers response in
           ret (topicSubscribers
                ++ map (fun subscriber =>
                          Js.Obj [("subscriberId", Js.Str subscriber)])
                       subscribers))
          (fun error =>
             logTopicSubscribersError this
               {| ILogTopicSubscribersPayload.environmentId := environmentId;
                  ILogTopicSubscribersPayload.organizationId := organizationId;
                  ILogTopicSubscribersPayload.topicId :=
                    Js.or (Js.get topic "topicId") (Js.Str "");
                  ILogTopicSubscribersPayload.transactionId := transactionId;
                  ILogTopicSubscribersPayload.userId := userId |} ;;;
             ret topicSubscribers) ;;
      forOfTopics this transactionId environmentId organizationId userId
        rest pushed
  end.

Definition getSubscribersFromAllTopics (this : t)
    (transactionId environmentId organizationId userId : string)
    (recipients : list Js.value) : Async (list Js.value) :=
  let topics := findTopics recipients in
  forOfTopics this transactionId environmentId organizationId userId topics [].

Definition execute (this : t) (command : MapTriggerRecipientsCommand.t)
  : Async (list Js.value) :=
  let environmentId := MapTriggerRecipientsCommand.environmentId command in
  let organizationId := MapTriggerRecipientsCommand.organizationId command in
  let recipients := MapTriggerRecipientsCommand.recipients command in
  let transactionId := MapTriggerRecipientsCommand.transactionId command in
  let userId := MapTriggerRecipientsCommand.userId command in
  let mappedRecipients :=
    match recipients with
    | Js.Arr items => items
    | single => [single]
    end in
  let simpleSubscribers := findSubscribers mappedRecipients in
  topicSubscribers <-
    getSubscribersFromAllTopics this transactionId environmentId
      organizationId userId mappedRecipients ;;
  ret (simpleSubscribers ++ topicSubscribers).

End Methods.

End MapTriggerRecipients.

(** ** Describing a run of the topic loop

    The loop calls the resolver once per topic; what the resolver answers
    to each call is fixed by the calls before it. *)

Section Run.

Variable ERROR : string.
Variable TOPIC_SUBSCRIBERS_ERROR : string.
Variable resolver : GetTopicSubscribersUseCase.t.
Variables transactionId environmentId organizationId userId : string.

(** The command the loop builds for a topic. *)
Definition commandOf (topic : Js.value) : GetTopicSubscribersCommand.t :=
  GetTopicSubscribersCommand.create
    environmentId (Js.or (Js.get topic "topicId") (Js.Str "")) organizationId userId.

(** The answers to a run of commands, from a given call history. *)
Fixpoint answers (history commands : list GetTopicSubscribersCommand.t)
  : list (Completion TopicSubscribersResponse.t) :=
  match commands with
  | [] => []
  | command :: rest =>
      GetTopicSubscribersUseCase.execute resolver history command
      :: answers (history ++ [command]) rest
  end.

(** What one answer adds to the resolved list. *)
Definition contribution (answer : Completion TopicSubscribersResponse.t)
  : list Js.value :=
  match answer with
  | Normal response =>
      map (fun subscriber => Js.Obj [("subscriberId", Js.Str subscriber)])
          (TopicSubscribersResponse.subscribers response)
  | Throw _ => []
  end.

(** The log record of a failed topic. *)
Definition failureLogOf (topic : Js.value) : CreateLogCommand.t :=
  CreateLogCommand.create
    transactionId ERROR environmentId organizationId
    "Failed retrieving topic subscribers" userId TOPIC_SUBSCRIBERS_ERROR
    (Js.Obj [("topicId", Js.or (Js.get topic "topicId") (Js.Str ""))]).

(** The topics whose call was answered by a rejection. *)
Definition failedTopics (topics : list Js.value)
    (answered : list (Completion TopicSubscribersResponse.t)) : list Js.value :=
  map fst (filter (fun pair => isThrow (snd pair)) (combine topics answered)).

End Run.

(** [Array.isArray(v) ? v : [v]], as both classes write it. *)
Definition asList (v : Js.value) : list Js.value :=
  match v with
  | Js.Arr items => items
  | single => [single]
  end.

(** A trigger body and a mapping command with the recipients replaced. *)
Definition withTo (body : TriggerEventRequestDto.t) (to : Js.value)
  : TriggerEventRequestDto.t :=
  {| TriggerEventRequestDto.name := TriggerEventRequestDto.name body;
     TriggerEventRequestDto.payload := TriggerEventRequestDto.payload body;
     TriggerEventRequestDto.overrides := TriggerEventRequestDto.overrides body;
     TriggerEventRequestDto.to := to;
     TriggerEventRequestDto.actor := TriggerEventRequestDto.actor body;
     TriggerEventRequestDto.transactionId :=
       TriggerEventRequestDto.transactionId body |}.

Definition withRecipients (command : MapTriggerRecipientsCommand.t)
    (recipients : Js.value) : MapTriggerRecipientsCommand.t :=
  MapTriggerRecipientsCommand.create
    (MapTriggerRecipientsCommand.environmentId command)
    (MapTriggerRecipientsCommand.organizationId command)
    recipients
    (MapTriggerRecipientsCommand.transactionId command)
    (MapTriggerRecipientsCommand.userId command).

(** The single trigger's body that carries the fields of a broadcast body,
    with a recipient expression added. *)
Definition singleOf (body : TriggerEventToAllRequestDto.t) (to : Js.value)
  : TriggerEventRequestDto.t :=
  {| TriggerEventRequestDto.name := TriggerEventToAllRequestDto.name body;
     TriggerEventRequestDto.payload := TriggerEventToAllRequestDto.payload body;
     TriggerEventRequestDto.overrides := TriggerEventToAllRequestDto.overrides body;
     TriggerEventRequestDto.to := to;
     TriggerEventRequestDto.actor := TriggerEventToAllRequestDto.actor body;
     TriggerEventRequestDto.transactionId :=
       TriggerEventToAllRequestDto.transactionId body |}.

(** The transaction id both triggers settle on, in a given world. *)
Definition settledTransactionId (uuidv4 : list string -> string)
    (given : Js.value) (w : World) : Js.value :=
  if Js.truthy given then given else Js.Str (uuidv4 (uuidLog w)).

(** The command the single trigger assembles for the workflow engine. *)
Definition dispatchedCommand (SUBSCRIBER : string) (user : IJwtPayload.t)
    (body : TriggerEventRequestDto.t) (transactionId : Js.value)
  : TriggerEventCommand.t :=
  TriggerEventCommand.create
    (IJwtPayload._id user)
    (IJwtPayload.environmentId user)
    (IJwtPayload.organizationId user)
    (TriggerEventRequestDto.name body)
    (TriggerEventRequestDto.payload body)
    (Js.or (TriggerEventRequestDto.overrides body) (Js.Obj []))
    (EventsController.mapSubscribers
       (EventsController.aggregateSubscribers SUBSCRIBER body))
    (EventsController.mapActor (TriggerEventRequestDto.actor body))
    transactionId.

(** The command the broadcast trigger assembles. *)
Definition broadcastCommand (user : IJwtPayload.t)
    (body : TriggerEventToAllRequestDto.t) (transactionId : Js.value)
  : TriggerEventToAllCommand.t :=
  TriggerEventToAllCommand.create
    (IJwtPayload._id user)
    (IJwtPayload.environmentId user)
    (IJwtPayload.organizationId user)
    (TriggerEventToAllRequestDto.name body)
    (TriggerEventToAllRequestDto.payload body)
    transactionId
    (Js.or (TriggerEventToAllRequestDto.overrides body) (Js.Obj []))
    (EventsController.mapActor (TriggerEventToAllRequestDto.actor body)).

(** ** Sample collaborators and requests *)

Module Sample.

Definition SUBSCRIBER : string := "Subscriber".
Definition TOPIC : string := "Topic".
Definition ERROR : string := "error".
Definition TOPIC_SUBSCRIBERS_ERROR : string := "topic_subscribers_error".

Definition uuidv4 (_ : list string) : string :=
  "d2239acb-e879-4bdb-ab6f-365b43278d8f".

Definition acknowledgement (transactionId : Js.value) : Js.value :=
  Js.Obj [("acknowledged", Js.Bool true);
          ("status", Js.Str "processed");
          ("transactionId", transactionId)].

Definition triggerEvent : TriggerEvent.t :=
  {| TriggerEvent.validateTransactionIdProperty := fun _ _ _ _ => Normal tt;
     TriggerEvent.execute := fun _ command =>
       Normal (acknowledgement (TriggerEventCommand.transactionId command)) |}.

Definition triggerEventToAll : TriggerEventToAll.t :=
  {| TriggerEventToAll.execute := fun _ command =>
       Normal (acknowledgement (TriggerEventToAllCommand.transactionId command)) |}.

Definition controller : EventsController.t :=
  {| EventsController.triggerEvent := triggerEvent;
     EventsController.triggerEventToAll := triggerEventToAll |}.

Definition user : IJwtPayload.t :=
  {| IJwtPayload._id := "user-1";
     IJwtPayload.environmentId := "env-1";
     IJwtPayload.organizationId := "org-1" |}.

(** Topic [t1] has members [a] and [b], topic [t3] has member [c]; any
    other lookup fails. *)
Definition resolver : GetTopicSubscribersUseCase.t :=
  {| GetTopicSubscribersUseCase.execute := fun _ command =>
       if Js.eqStr (GetTopicSubscribersCommand.topicId command) "t1"
       then Normal {| TopicSubscribersResponse.subscribers := ["a"; "b"] |}
       else if Js.eqStr (GetTopicSubscribersCommand.topicId command) "t3"
       then Normal {| TopicSubscribersResponse.subscribers := ["c"] |}
       else Throw (Js.Str "topic not found") |}.

Definition failingLog : CreateLog.t :=
  {| CreateLog.execute := fun _ _ => Throw (Js.Str "log store down") |}.

Definition mapper : MapTriggerRecipients.t :=
  {| MapTriggerRecipients.createLog := failingLog;
     MapTriggerRecipients.getTopicSubscribers := resolver |}.

Definition topic (topicId : string) : Js.value :=
  Js.Obj [("type", Js.Str TOPIC); ("topicId", Js.Str topicId)].

Definition body (to actor : Js.value) : TriggerEventRequestDto.t :=
  {| TriggerEventRequestDto.name := Js.Str "welcome";
     TriggerEventRequestDto.payload := Js.Obj [];
     TriggerEventRequestDto.overrides := Js.Undefined;
     TriggerEventRequestDto.to := to;
     TriggerEventRequestDto.actor := actor;
     TriggerEventRequestDto.transactionId := Js.Str "tx-1" |}.

Definition command (recipients : Js.value) : MapTriggerRecipientsCommand.t :=
  MapTriggerRecipientsCommand.create "env-1" "org-1" recipients "tx-1" "user-1".

End Sample.

(** ** Describing the log writes and the counts *)

(** An entry whose [type] is absent (or falsy) or one of the two values of
    [TriggerRecipientsTypeEnum]; bare ids count as such. *)
Definition withinEnum (SUBSCRIBER TOPIC : string) (element : Js.value) : bool :=
  Js.isString element
  || negb (Js.truthy (Js.get element "type"))
  || Js.eqStr (Js.get element "type") SUBSCRIBER
  || Js.eqStr (Js.get element "type") TOPIC.

(** The lookups that were answered by a rejection. *)
Definition failedLookups (commands : list GetTopicSubscribersCommand.t)
    (answered : list (Completion TopicSubscribersResponse.t))
  : list GetTopicSubscribersCommand.t :=
  map fst (filter (fun pair => isThrow (snd pair)) (combine commands answered)).

(** The number of members the answered lookups returned. *)
Definition memberCount (answered : list (Completion TopicSubscribersResponse.t))
  : nat :=
  list_sum
    (map (fun answer =>
            match answer with
            | Normal response =>
                List.length (TopicSubscribersResponse.subscribers response)
            | Throw _ => 0
            end)
         answered).

(** The number of rejected lookups. *)
Definition failureCount (answered : list (Completion TopicSubscribersResponse.t))
  : nat :=
  List.length (filter isThrow answered).

(** What the log sink answers to a run of writes, from a given history. *)
Fixpoint writes (sink : CreateLog.t) (history records : list CreateLogCommand.t)
  : list (Completion unit) :=
  match records with
  | [] => []
  | record :: rest =>
      CreateLog.execute sink history record
      :: writes sink (history ++ [record]) rest
  end.


(** Further sample collaborators: a resolver that finds every topic and a
    log sink that accepts every write. *)
Module MoreSamples.

Definition openResolver : GetTopicSubscribersUseCase.t :=
  {| GetTopicSubscribersUseCase.execute := fun _ _ =>
       Normal {| TopicSubscribersResponse.subscribers := ["m"] |} |}.

Definition acceptingLog : CreateLog.t :=
  {| CreateLog.execute := fun _ _ => Normal tt |}.

Definition openMapper : MapTriggerRecipients.t :=
  {| MapTriggerRecipients.createLog := Sample.failingLog;
     MapTriggerRecipients.getTopicSubscribers := openResolver |}.

End MoreSamples.

(** ** [MapTriggerRecipients] with a log sink that can raise at the call

    [this.createLog.execute(...)] is evaluated in the catch block of the
    loop, outside any [try]; only the promise it returns is guarded, by
    [.catch].  A sink of type [CreateLog.t] always returns a promise.  Here
    the call may also raise before any promise exists: the outer completion
    is that of the call, the inner one the settlement of the promise. *)

Module CreateLogCall.
Record t := {
  execute :
    list CreateLogCommand.t -> CreateLogCommand.t -> Completion (Completion unit)
}.
End CreateLogCall.

(** A sink that always returns a promise, seen as such a sink. *)
Definition promised (sink : CreateLog.t) : CreateLogCall.t :=
  {| CreateLogCall.execute := fun history command =>
       Normal (CreateLog.execute sink history command) |}.

(** The promises of a sink, where its calls return one. *)
Definition settled (sink : CreateLogCall.t) : CreateLog.t :=
  {| CreateLog.execute := fun history command =>
       match CreateLogCall.execute sink history command with
       | Normal promise => promise
       | Throw e => Throw e
       end |}.

Definition callCreateLogCall (createLog : CreateLogCall.t)
    (command : CreateLogCommand.t) : Async (Completion unit) :=
  fun w =>
    (CreateLogCall.execute createLog (createLogLog w) command,
     mkWorld (uuidLog w) (triggerEventLog w) (triggerEventToAllLog w)
             (getTopicSubscribersLog w)
             (createLogLog w ++ [command]) (consoleLog w) (reactions w)).

Module RaisingLog.

Record t := {
  createLog : CreateLogCall.t;
  getTopicSubscribers : GetTopicSubscribersUseCase.t
}.

Section Methods.

Variable TOPIC : string.
Variable ERROR : string.
Variable TOPIC_SUBSCRIBERS_ERROR : string.

Definition logTopicSubscribersError (this : t)
    (payload : ILogTopicSubscribersPayload.t) : Async unit :=
  written <-
    callCreateLogCall (createLog this)
      (CreateLogCommand.create
         (ILogTopicSubscribersPayload.transactionId payload)
         ERROR
         (ILogTopicSubscribersPayload.environmentId payload)
         (ILogTopicSubscribersPayload.organizationId payload)
         "Failed retrieving topic subscribers"
         (ILogTopicSubscribersPayload.userId payload)
         TOPIC_SUBSCRIBERS_ERROR
         (Js.Obj [("topicId", ILogTopicSubscribersPayload.topicId payload)])) ;;
  catchWithConsoleError written.

Fixpoint forOfTopics (this : t)
    (transactionId environmentId organizationId userId : string)
    (topics : list Js.value) (topicSubscribers : list Js.value)
  : Async (list Js.value) :=
  match topics with
  | [] => ret topicSubscribers
  | topic :: rest =>
      pushed <-
        tryCatch
          (let getTopicSubscribersCommand :=
             GetTopicSubscribersCommand.create
               environmentId
               (Js.or (Js.get topic "topicId") (Js.Str ""))
               organizationId
               userId in
           answered <-
             callGetTopicSubscribers (getTopicSubscribers this)
               getTopicSubscribersCommand ;;
           response <- await answered ;;
           let subscribers := TopicSubscribersResponse.subscribers response in
           ret (topicSubscribers
                ++ map (fun subscriber =>
                          Js.Obj [("subscriberId", Js.Str subscriber)])
                       subscribers))
          (fun error =>
             logTopicSubscribersError this
               {| ILogTopicSubscribersPayload.environmentId := environmentId;
                  ILogTopicSubscribersPayload.organizationId := organizationId;
                  ILogTopicSubscribersPayload.topicId :=
                    Js.or (Js.get topic "topicId") (Js.Str "");
                  ILogTopicSubscribersPayload.transactionId := transactionId;
                  ILogTopicSubscribersPayload.userId := userId |} ;;;
             ret topicSubscribers) ;;
      forOfTopics this transactionId environmentId organizationId userId
        rest pushed
  end.

Definition getSubscribersFromAllTopics (this : t)
    (transactionId environmentId organizationId userId : string)
    (recipients : list Js.value) : Async (list Js.value) :=
  let topics := MapTriggerRecipients.findTopics TOPIC recipients in
  forOfTopics this transactionId environmentId organizationId userId topics [].

Definition execute (this : t) (command : MapTriggerRecipientsCommand.t)
  : Async (list Js.value) :=
  let environmentId := MapTriggerRecipientsCommand.environmentId command in
  let organizationId := MapTriggerRecipientsCommand.organizationId command in
  let recipients := MapTriggerRecipientsCommand.recipients command in
  let transactionId := MapTriggerRecipientsCommand.transactionId command in
  let userId := MapTriggerRecipientsCommand.userId command in
  let mappedRecipients :=
    match recipients with
    | Js.Arr items => items
    | single => [single]
    end in
  let simpleSubscribers :=
    MapTriggerRecipients.findSubscribers TOPIC mappedRecipients in
  topicSubscribers <-
    getSubscribersFromAllTopics this transactionId environmentId
      organizationId userId mappedRecipients ;;
  ret (simpleSubscribers ++ topicSubscribers).

End Methods.

End RaisingLog.

(** Sample sinks of that kind: one whose promise is rejected, one whose
    promise is fulfilled, one that raises at the call. *)
Module CallSamples.


Definition acceptingLog : CreateLogCall.t :=
  {| CreateLogCall.execute := fun _ _ => Normal (Normal tt) |}.


Definition mapper (sink : CreateLogCall.t) : RaisingLog.t :=
  {| RaisingLog.createLog := sink;
     RaisingLog.getTopicSubscribers := Sample.resolver |}.

End CallSamples.

(** ** Facts about the monad and the calls *)

(** The log write changes the two log-sink fields and nothing else, and
    never raises. *)
Lemma logTopicSubscribersError_run ERROR CODE this payload w :
  let r := MapTriggerRecipients.logTopicSubscribersError ERROR CODE this payload w in
  fst r = Normal tt
  /\ uuidLog (snd r) = uuidLog w
  /\ triggerEventLog (snd r) = triggerEventLog w
  /\ triggerEventToAllLog (snd r) = triggerEventToAllLog w
  /\ getTopicSubscribersLog (snd r) = getTopicSubscribersLog w
  /\ createLogLog (snd r) =
       createLogLog w ++
       [CreateLogCommand.create
          (ILogTopicSubscribersPayload.transactionId payload) ERROR
          (ILogTopicSubscribersPayload.environmentId payload)
          (ILogTopicSubscribersPayload.organizationId payload)
          "Failed retrieving topic subscribers"
          (ILogTopicSubscribersPayload.userId payload) CODE
          (Js.Obj [("topicId", ILogTopicSubscribersPayload.topicId payload)])].
Proof.
  unfold MapTriggerRecipients.logTopicSubscribersError, bind, callCreateLog,
         catchWithConsoleError.
  cbn. repeat split; reflexivity.
Qed.

Section LoopFacts.

Variables ERROR CODE : string.
Variable this : MapTriggerRecipients.t.
Variables transactionId environmentId organizationId userId : string.

Let resolver := MapTriggerRecipients.getTopicSubscribers this.
Let loop :=
  MapTriggerRecipients.forOfTopics ERROR CODE this
    transactionId environmentId organizationId userId.
Let cmd := commandOf environmentId organizationId userId.
Let logOf := failureLogOf ERROR CODE transactionId environmentId organizationId userId.

(** One turn of the loop. *)
Lemma forOfTopics_cons (topic : Js.value) (rest acc : list Js.value) (w : World) :
  loop (topic :: rest) acc w =
  let w1 := snd (callGetTopicSubscribers resolver (cmd topic) w) in
  match GetTopicSubscribersUseCase.execute resolver
          (getTopicSubscribersLog w) (cmd topic) with
  | Normal response =>
      loop rest
        (acc ++ map (fun subscriber => Js.Obj [("subscriberId", Js.Str subscriber)])
                    (TopicSubscribersResponse.subscribers response))
        w1
  | Throw _ =>
      loop rest acc
        (snd (MapTriggerRecipients.logTopicSubscribersError ERROR CODE this
                {| ILogTopicSubscribersPayload.environmentId := environmentId;
                   ILogTopicSubscribersPayload.organizationId := organizationId;
                   ILogTopicSubscribersPayload.topicId :=
                     Js.or (Js.get topic "topicId") (Js.Str "");
                   ILogTopicSubscribersPayload.transactionId := transactionId;
                   ILogTopicSubscribersPayload.userId := userId |} w1))
  end.
Proof.
  unfold loop. cbn [MapTriggerRecipients.forOfTopics]. fold loop.
  unfold bind, tryCatch, await, callGetTopicSubscribers. cbn [fst snd].
  fold resolver.
  change (GetTopicSubscribersCommand.create environmentId
            (Js.or (Js.get topic "topicId") (Js.Str "")) organizationId userId)
    with (cmd topic).
  destruct (GetTopicSubscribersUseCase.execute resolver
              (getTopicSubscribersLog w) (cmd topic)) as [response | error].
  - reflexivity.
  - match goal with
    | |- context [MapTriggerRecipients.logTopicSubscribersError ?E ?C ?t ?p ?w1] =>
        pose proof (logTopicSubscribersError_run E C t p w1) as Hlog;
        destruct (MapTriggerRecipients.logTopicSubscribersError E C t p w1) as [c w2]
    end.
    cbn in Hlog. destruct Hlog as [Hc _]. now subst c.
Qed.

(** The loop as a whole: it returns normally, with the accumulator extended
    by every answer's contribution in topic order; every topic is asked
    about, in order; every rejected call leaves one log record. *)
Lemma forOfTopics_run (topics : list Js.value) :
  forall (acc : list Js.value) (w : World),
    let answered := answers resolver (getTopicSubscribersLog w) (map cmd topics) in
    let r := loop topics acc w in
    fst r = Normal (acc ++ flat_map contribution answered)
    /\ getTopicSubscribersLog (snd r) = getTopicSubscribersLog w ++ map cmd topics
    /\ createLogLog (snd r) =
         createLogLog w ++ map logOf (failedTopics topics answered)
    /\ uuidLog (snd r) = uuidLog w
    /\ triggerEventLog (snd r) = triggerEventLog w
    /\ triggerEventToAllLog (snd r) = triggerEventToAllLog w.
Proof.
  induction topics as [| topic rest IH]; intros acc w.
  - cbn. rewrite !app_nil_r. repeat split; reflexivity.
  - cbn zeta. rewrite forOfTopics_cons. cbn zeta.
    cbn [callGetTopicSubscribers snd].
    cbn [map answers flat_map].
    unfold failedTopics. cbn [combine].
    destruct (GetTopicSubscribersUseCase.execute resolver
                (getTopicSubscribersLog w) (cmd topic)) as [response | error];
      cbn [filter snd fst isThrow contribution map].
    + match goal with |- context [loop rest ?a ?w1] =>
        specialize (IH a w1) end.
      cbn zeta in IH. cbn [callGetTopicSubscribers snd getTopicSubscribersLog
                           createLogLog uuidLog triggerEventLog
                           triggerEventToAllLog] in IH.
      destruct IH as (Hr & Hg & Hl & Hu & Ht & Ha).
      rewrite Hr, Hg, Hl, Hu, Ht, Ha.
      rewrite <- !app_assoc.
      repeat split; reflexivity.
    + match goal with
      | |- context [MapTriggerRecipients.logTopicSubscribersError ?E ?C ?t ?p ?w1] =>
          pose proof (logTopicSubscribersError_run E C t p w1) as Hlog;
          destruct (MapTriggerRecipients.logTopicSubscribersError E C t p w1) as [c w2]
      end.
      cbn zeta in Hlog.
      cbn [fst snd callGetTopicSubscribers getTopicSubscribersLog createLogLog
           uuidLog triggerEventLog triggerEventToAllLog
           ILogTopicSubscribersPayload.transactionId
           ILogTopicSubscribersPayload.environmentId
           ILogTopicSubscribersPayload.organizationId
           ILogTopicSubscribersPayload.userId
           ILogTopicSubscribersPayload.topicId] in Hlog.
      destruct Hlog as (_ & Hu2 & Ht2 & Ha2 & Hg2 & Hl2).
      cbn [snd].
      specialize (IH acc w2). cbn zeta in IH.
      rewrite Hg2 in IH.
      destruct IH as (Hr & Hg & Hl & Hu & Ht & Ha).
      rewrite Hr, Hg, Hl, Hu, Ht, Ha, Hl2, Hu2, Ht2, Ha2.
      rewrite <- !app_assoc.
      repeat split; reflexivity.
Qed.

End LoopFacts.

(** ** Facts about [MapTriggerRecipients.execute] *)

(** The two classifiers split every list: an entry is a topic or it is
    not. *)
Lemma isNotTopic_negb_isTopic TOPIC (recipient : Js.value) :
  MapTriggerRecipients.isNotTopic TOPIC recipient
  = negb (MapTriggerRecipients.isTopic TOPIC recipient).
Proof.
  unfold MapTriggerRecipients.isNotTopic, MapTriggerRecipients.isTopic.
  destruct recipient; reflexivity.
Qed.

(** The whole of [execute], in terms of the resolver's answers. *)
Lemma execute_run TOPIC ERROR CODE this command w :
  let recipients := asList (MapTriggerRecipientsCommand.recipients command) in
  let cmd :=
    commandOf (MapTriggerRecipientsCommand.environmentId command)
              (MapTriggerRecipientsCommand.organizationId command)
              (MapTriggerRecipientsCommand.userId command) in
  let logOf :=
    failureLogOf ERROR CODE
      (MapTriggerRecipientsCommand.transactionId command)
      (MapTriggerRecipientsCommand.environmentId command)
      (MapTriggerRecipientsCommand.organizationId command)
      (MapTriggerRecipientsCommand.userId command) in
  let topics := MapTriggerRecipients.findTopics TOPIC recipients in
  let answered :=
    answers (MapTriggerRecipients.getTopicSubscribers this)
            (getTopicSubscribersLog w) (map cmd topics) in
  let r := MapTriggerRecipients.execute TOPIC ERROR CODE this command w in
  fst r = Normal (MapTriggerRecipients.findSubscribers TOPIC recipients
                  ++ flat_map contribution answered)
  /\ getTopicSubscribersLog (snd r) = getTopicSubscribersLog w ++ map cmd topics
  /\ createLogLog (snd r) =
       createLogLog w ++ map logOf (failedTopics topics answered)
  /\ uuidLog (snd r) = uuidLog w
  /\ triggerEventLog (snd r) = triggerEventLog w
  /\ triggerEventToAllLog (snd r) = triggerEventToAllLog w.
Proof.
  cbn zeta.
  unfold MapTriggerRecipients.execute,
         MapTriggerRecipients.getSubscribersFromAllTopics.
  fold (asList (MapTriggerRecipientsCommand.recipients command)).
  set (recipients := asList (MapTriggerRecipientsCommand.recipients command)).
  pose proof (forOfTopics_run ERROR CODE this
                (MapTriggerRecipientsCommand.transactionId command)
                (MapTriggerRecipientsCommand.environmentId command)
                (MapTriggerRecipientsCommand.organizationId command)
                (MapTriggerRecipientsCommand.userId command)
                (MapTriggerRecipients.findTopics TOPIC recipients) [] w) as H.
  cbn zeta in H. cbn [app] in H.
  unfold bind.
  destruct (MapTriggerRecipients.forOfTopics _ _ _ _ _ _ _ _ _ _) as [c w'].
  cbn [fst snd] in H. destruct H as (Hr & H).
  subst c. cbn [ret fst snd]. split; [reflexivity | exact H].
Qed.

Section AnswerFacts.

Variable resolver : GetTopicSubscribersUseCase.t.

Lemma answers_length (commands : list GetTopicSubscribersCommand.t) :
  forall history,
    List.length (answers resolver history commands) = List.length commands.
Proof.
  induction commands as [| c cs IH]; intros history; cbn; [reflexivity |].
  now rewrite IH.
Qed.

Lemma answers_app (first second : list GetTopicSubscribersCommand.t) :
  forall history,
    answers resolver history (first ++ second)
    = answers resolver history first
      ++ answers resolver (history ++ first) second.
Proof.
  induction first as [| c cs IH]; intros history; cbn.
  - now rewrite app_nil_r.
  - rewrite IH. now rewrite <- app_assoc.
Qed.

Lemma failedTopics_app (ts1 ts2 : list Js.value)
    (as1 as2 : list (Completion TopicSubscribersResponse.t)) :
  List.length ts1 = List.length as1 ->
  failedTopics (ts1 ++ ts2) (as1 ++ as2)
  = failedTopics ts1 as1 ++ failedTopics ts2 as2.
Proof.
  intros Hlen. unfold failedTopics.
  revert as1 Hlen.
  induction ts1 as [| t ts IH]; intros [| a as1] Hlen; cbn in Hlen; try discriminate.
  - reflexivity.
  - cbn [app combine filter snd].
    injection Hlen as Hlen. specialize (IH as1 Hlen).
    destruct (isThrow a); cbn [map app]; now rewrite IH.
Qed.

End AnswerFacts.

(** C2 — when the resolver call for one topic fails, [execute] still
    returns normally; that topic adds nothing to the result; exactly one log
    record is written for it, carrying the topic's id (the empty string when
    the reference has none) with the transaction and tenant context; and the
    topics before and after it are asked about and contribute as usual. *)
Theorem execute_isolates_failed_topic
    TOPIC ERROR CODE this command w before topic after error :
  let recipients := asList (MapTriggerRecipientsCommand.recipients command) in
  let transactionId := MapTriggerRecipientsCommand.transactionId command in
  let environmentId := MapTriggerRecipientsCommand.environmentId command in
  let organizationId := MapTriggerRecipientsCommand.organizationId command in
  let userId := MapTriggerRecipientsCommand.userId command in
  let resolver := MapTriggerRecipients.getTopicSubscribers this in
  let cmd := commandOf environmentId organizationId userId in
  let logOf :=
    failureLogOf ERROR CODE transactionId environmentId organizationId userId in
  let history := getTopicSubscribersLog w in
  let answeredBefore := answers resolver history (map cmd before) in
  let answeredAfter :=
    answers resolver (history ++ map cmd before ++ [cmd topic]) (map cmd after) in
  MapTriggerRecipients.findTopics TOPIC recipients = before ++ topic :: after ->
  GetTopicSubscribersUseCase.execute resolver
    (history ++ map cmd before) (cmd topic) = Throw error ->
  let r := MapTriggerRecipients.execute TOPIC ERROR CODE this command w in
  fst r = Normal (MapTriggerRecipients.findSubscribers TOPIC recipients
                  ++ flat_map contribution answeredBefore
                  ++ flat_map contribution answeredAfter)
  /\ createLogLog (snd r) =
       createLogLog w
       ++ map logOf (failedTopics before answeredBefore)
       ++ [CreateLogCommand.create
             transactionId ERROR environmentId organizationId
             "Failed retrieving topic subscribers" userId CODE
             (Js.Obj [("topicId", Js.or (Js.get topic "topicId") (Js.Str ""))])]
       ++ map logOf (failedTopics after answeredAfter)
  /\ getTopicSubscribersLog (snd r) =
       history ++ map cmd before ++ cmd topic :: map cmd after.
Proof.
  cbn zeta. intros Htopics Hfail.
  pose proof (execute_run TOPIC ERROR CODE this command w) as H.
  cbn zeta in H. rewrite Htopics in H.
  rewrite map_app in H. cbn [map] in H.
  rewrite answers_app in H. cbn [answers] in H. rewrite Hfail in H.
  destruct H as (Hr & Hg & Hl & _).
  rewrite Hr, Hg, Hl.
  rewrite flat_map_app. cbn [flat_map contribution app].
  rewrite failedTopics_app
    by (now rewrite answers_length, length_map).
  rewrite map_app.
  unfold failedTopics at 2. cbn [combine filter snd isThrow map fst].
  fold (failedTopics after
          (answers (MapTriggerRecipients.getTopicSubscribers this)
             ((getTopicSubscribersLog w
               ++ map (commandOf (MapTriggerRecipientsCommand.environmentId command)
                         (MapTriggerRecipientsCommand.organizationId command)
                         (MapTriggerRecipientsCommand.userId command)) before)
              ++ [commandOf (MapTriggerRecipientsCommand.environmentId command)
                    (MapTriggerRecipientsCommand.organizationId command)
                    (MapTriggerRecipientsCommand.userId command) topic])
             (map (commandOf (MapTriggerRecipientsCommand.environmentId command)
                     (MapTriggerRecipientsCommand.organizationId command)
                     (MapTriggerRecipientsCommand.userId command)) after))).
  rewrite <- !app_assoc. cbn [app].
  repeat split; reflexivity.
Qed.

(** C3 — [execute] returns the direct entries, in input order, each
    mapped to a subscriber (a bare id [s] becomes [{subscriberId: s}], any
    other entry is kept as it is), followed by the topic-derived subscribers:
    the topics are asked about in input order and each answered topic adds
    one [{subscriberId}] entry per member, in the order the resolver gave
    them.  A direct entry is one whose [type] is not the topic marker. *)
Theorem execute_directs_then_topics TOPIC ERROR CODE this command w :
  let recipients := asList (MapTriggerRecipientsCommand.recipients command) in
  let isTopicReference :=
    fun recipient => Js.eqStr (Js.get recipient "type") TOPIC in
  let directs :=
    filter (fun recipient => negb (isTopicReference recipient)) recipients in
  let topics := filter isTopicReference recipients in
  let lookupOf :=
    fun topic =>
      GetTopicSubscribersCommand.create
        (MapTriggerRecipientsCommand.environmentId command)
        (if Js.truthy (Js.get topic "topicId")
         then Js.get topic "topicId"
         else Js.Str "")
        (MapTriggerRecipientsCommand.organizationId command)
        (MapTriggerRecipientsCommand.userId command) in
  let answered :=
    answers (MapTriggerRecipients.getTopicSubscribers this)
            (getTopicSubscribersLog w) (map lookupOf topics) in
  let r := MapTriggerRecipients.execute TOPIC ERROR CODE this command w in
  fst r =
    Normal
      (map (fun direct =>
              match direct with
              | Js.Str id => Js.Obj [("subscriberId", Js.Str id)]
              | structured => structured
              end)
           directs
       ++ flat_map
            (fun answer =>
               match answer with
               | Normal response =>
                   map (fun member => Js.Obj [("subscriberId", Js.Str member)])
                       (TopicSubscribersResponse.subscribers response)
               | Throw _ => []
               end)
            answered)
  /\ getTopicSubscribersLog (snd r)
     = getTopicSubscribersLog w ++ map lookupOf topics.
Proof.
  cbn zeta.
  pose proof (execute_run TOPIC ERROR CODE this command w) as H.
  cbn zeta in H. destruct H as (Hr & Hg & _).
  unfold MapTriggerRecipients.findSubscribers, MapTriggerRecipients.findTopics in *.
  assert (Hdirects :
            filter (MapTriggerRecipients.isNotTopic TOPIC)
                   (asList (MapTriggerRecipientsCommand.recipients command))
            = filter (fun recipient =>
                        negb (Js.eqStr (Js.get recipient "type") TOPIC))
                     (asList (MapTriggerRecipientsCommand.recipients command))).
  { apply filter_ext. intros recipient. apply isNotTopic_negb_isTopic. }
  assert (Hmap : forall entries,
             map MapTriggerRecipients.mapSubscriber entries
             = map (fun direct =>
                      match direct with
                      | Js.Str id => Js.Obj [("subscriberId", Js.Str id)]
                      | structured => structured
                      end)
                   entries).
  { intros entries. apply map_ext. intros entry. destruct entry; reflexivity. }
  rewrite Hdirects, Hmap in Hr.
  split; [exact Hr | exact Hg].
Qed.

(** C7 — whatever the resolver does, the result of [execute] starts with
    the mapped direct entries, as many as there are direct entries in the
    input, and is never shorter than that. *)
Theorem execute_direct_prefix TOPIC ERROR CODE this command w :
  let recipients := asList (MapTriggerRecipientsCommand.recipients command) in
  let directs := filter (MapTriggerRecipients.isNotTopic TOPIC) recipients in
  exists resolved,
    fst (MapTriggerRecipients.execute TOPIC ERROR CODE this command w)
    = Normal resolved
    /\ firstn (List.length directs) resolved
       = map MapTriggerRecipients.mapSubscriber directs
    /\ List.length directs <= List.length resolved.
Proof.
  cbn zeta.
  pose proof (execute_run TOPIC ERROR CODE this command w) as H.
  cbn zeta in H. destruct H as (Hr & _).
  eexists. split; [exact Hr |].
  unfold MapTriggerRecipients.findSubscribers.
  set (directs := filter (MapTriggerRecipients.isNotTopic TOPIC) _).
  assert (Hlen : List.length (map MapTriggerRecipients.mapSubscriber directs)
                 = List.length directs) by apply length_map.
  split.
  - rewrite <- Hlen. rewrite firstn_app, Nat.sub_diag, firstn_all.
    cbn [firstn]. now rewrite app_nil_r.
  - rewrite length_app, Hlen. lia.
Qed.


(** With a sink whose calls all return a promise, the methods run as with
    the sink of its promises. *)
Lemma raising_forOfTopics_settled ERROR CODE sink resolver
    transactionId environmentId organizationId userId :
  (forall history record,
      isThrow (CreateLogCall.execute sink history record) = false) ->
  forall topics acc w,
    RaisingLog.forOfTopics ERROR CODE
      {| RaisingLog.createLog := sink;
         RaisingLog.getTopicSubscribers := resolver |}
      transactionId environmentId organizationId userId topics acc w
    = MapTriggerRecipients.forOfTopics ERROR CODE
        {| MapTriggerRecipients.createLog := settled sink;
           MapTriggerRecipients.getTopicSubscribers := resolver |}
        transactionId environmentId organizationId userId topics acc w.
Proof.
  intros Hpromise.
  induction topics as [| topic rest IH]; intros acc w; [reflexivity |].
  cbn [RaisingLog.forOfTopics MapTriggerRecipients.forOfTopics].
  unfold RaisingLog.logTopicSubscribersError,
         MapTriggerRecipients.logTopicSubscribersError,
         bind, tryCatch, callGetTopicSubscribers, await, ret,
         callCreateLogCall, callCreateLog, catchWithConsoleError.
  cbn [RaisingLog.getTopicSubscribers MapTriggerRecipients.getTopicSubscribers
       RaisingLog.createLog MapTriggerRecipients.createLog settled
       CreateLog.execute createLogLog uuidLog triggerEventLog
       triggerEventToAllLog getTopicSubscribersLog consoleLog reactions
       ILogTopicSubscribersPayload.transactionId
       ILogTopicSubscribersPayload.environmentId
       ILogTopicSubscribersPayload.organizationId
       ILogTopicSubscribersPayload.userId
       ILogTopicSubscribersPayload.topicId].
  destruct (GetTopicSubscribersUseCase.execute resolver _ _) as [response | error].
  - apply IH.
  - match goal with
    | |- context [CreateLogCall.execute sink ?h ?c] =>
        pose proof (Hpromise h c) as Hcall;
        destruct (CreateLogCall.execute sink h c) as [promise | raised]
    end; [| discriminate].
    apply IH.
Qed.

Lemma raising_execute_settled TOPIC ERROR CODE sink resolver command w :
  (forall history record,
      isThrow (CreateLogCall.execute sink history record) = false) ->
  RaisingLog.execute TOPIC ERROR CODE
    {| RaisingLog.createLog := sink;
       RaisingLog.getTopicSubscribers := resolver |} command w
  = MapTriggerRecipients.execute TOPIC ERROR CODE
      {| MapTriggerRecipients.createLog := settled sink;
         MapTriggerRecipients.getTopicSubscribers := resolver |} command w.
Proof.
  intros Hpromise.
  unfold RaisingLog.execute, MapTriggerRecipients.execute,
         RaisingLog.getSubscribersFromAllTopics,
         MapTriggerRecipients.getSubscribersFromAllTopics, bind.
  now rewrite raising_forOfTopics_settled.
Qed.

(** The methods of [MapTriggerRecipients] are those of [RaisingLog] for
    a sink that always returns a promise. *)
Lemma promised_execute_agrees TOPIC ERROR CODE sink resolver command w :
  RaisingLog.execute TOPIC ERROR CODE
    {| RaisingLog.createLog := promised sink;
       RaisingLog.getTopicSubscribers := resolver |} command w
  = MapTriggerRecipients.execute TOPIC ERROR CODE
      {| MapTriggerRecipients.createLog := sink;
         MapTriggerRecipients.getTopicSubscribers := resolver |} command w.
Proof.
  rewrite raising_execute_settled by reflexivity.
  destruct sink as [write]. reflexivity.
Qed.


(** C10 — a recipient expression that is not an array is handled as the
    one-element array holding it, by the controller's aggregation (and so
    by the trigger as a whole) and by [execute] alike. *)
Theorem single_recipient_as_singleton
    SUBSCRIBER TOPIC ERROR CODE uuidv4 controller user this body command
    (r : Js.value) :
  Js.isArray r = false ->
  EventsController.aggregateSubscribers SUBSCRIBER (withTo body r)
  = EventsController.aggregateSubscribers SUBSCRIBER (withTo body (Js.Arr [r]))
  /\ EventsController.trackEvent SUBSCRIBER uuidv4 controller user (withTo body r)
     = EventsController.trackEvent SUBSCRIBER uuidv4 controller user
         (withTo body (Js.Arr [r]))
  /\ MapTriggerRecipients.execute TOPIC ERROR CODE this
       (withRecipients command r)
     = MapTriggerRecipients.execute TOPIC ERROR CODE this
         (withRecipients command (Js.Arr [r])).
Proof.
  intros Hr. destruct r; try discriminate; repeat split; reflexivity.
Qed.

(** ** Facts about [EventsController] *)

Section ControllerFacts.

Variable SUBSCRIBER : string.
Variable uuidv4 : list string -> string.
Variable this : EventsController.t.
Variable user : IJwtPayload.t.

Let organizationId := IJwtPayload.organizationId user.
Let environmentId := IJwtPayload.environmentId user.
Let validate := TriggerEvent.validateTransactionIdProperty
                  (EventsController.triggerEvent this).

(** The whole of the single trigger. *)
Lemma trackEvent_run (body : TriggerEventRequestDto.t) (w : World) :
  let given := TriggerEventRequestDto.transactionId body in
  let tid := settledTransactionId uuidv4 given w in
  let validation := CallValidate tid organizationId environmentId in
  let command := dispatchedCommand SUBSCRIBER user body tid in
  let r := EventsController.trackEvent SUBSCRIBER uuidv4 this user body w in
  uuidLog (snd r)
  = uuidLog w ++ (if Js.truthy given then [] else [uuidv4 (uuidLog w)])
  /\ triggerEventToAllLog (snd r) = triggerEventToAllLog w
  /\ getTopicSubscribersLog (snd r) = getTopicSubscribersLog w
  /\ createLogLog (snd r) = createLogLog w
  /\ match validate (triggerEventLog w) tid organizationId environmentId with
     | Throw e =>
         fst r = Throw e
         /\ triggerEventLog (snd r) = triggerEventLog w ++ [validation]
     | Normal _ =>
         fst r = TriggerEvent.execute (EventsController.triggerEvent this)
                   (triggerEventLog w ++ [validation]) command
         /\ triggerEventLog (snd r)
            = triggerEventLog w ++ [validation; CallExecute command]
     end.
Proof.
  cbn zeta.
  unfold EventsController.trackEvent, EventsController.transactionIdOrFresh,
         settledTransactionId, dispatchedCommand, validate,
         organizationId, environmentId.
  destruct (Js.truthy (TriggerEventRequestDto.transactionId body));
    unfold bind, ret, EventsController.callUuidv4, callValidate, await,
           callTriggerEvent;
    cbn [fst snd uuidLog triggerEventLog triggerEventToAllLog
         getTopicSubscribersLog createLogLog];
    rewrite ?app_nil_r;
    destruct (TriggerEvent.validateTransactionIdProperty _ _ _ _ _);
    cbn [fst snd uuidLog triggerEventLog triggerEventToAllLog
         getTopicSubscribersLog createLogLog];
    try (destruct (TriggerEvent.execute _ _ _));
    cbn [fst snd uuidLog triggerEventLog triggerEventToAllLog
         getTopicSubscribersLog createLogLog];
    rewrite <- ?app_assoc; repeat split; reflexivity.
Qed.

(** The whole of the broadcast trigger. *)
Lemma trackEventToAll_run (body : TriggerEventToAllRequestDto.t) (w : World) :
  let given := TriggerEventToAllRequestDto.transactionId body in
  let tid := settledTransactionId uuidv4 given w in
  let validation := CallValidate tid organizationId environmentId in
  let command := broadcastCommand user body tid in
  let r := EventsController.trackEventToAll uuidv4 this user body w in
  uuidLog (snd r)
  = uuidLog w ++ (if Js.truthy given then [] else [uuidv4 (uuidLog w)])
  /\ triggerEventLog (snd r) = triggerEventLog w ++ [validation]
  /\ getTopicSubscribersLog (snd r) = getTopicSubscribersLog w
  /\ createLogLog (snd r) = createLogLog w
  /\ match validate (triggerEventLog w) tid organizationId environmentId with
     | Throw e =>
         fst r = Throw e
         /\ triggerEventToAllLog (snd r) = triggerEventToAllLog w
     | Normal _ =>
         fst r = TriggerEventToAll.execute (EventsController.triggerEventToAll this)
                   (triggerEventToAllLog w) command
         /\ triggerEventToAllLog (snd r) = triggerEventToAllLog w ++ [command]
     end.
Proof.
  cbn zeta.
  unfold EventsController.trackEventToAll, EventsController.transactionIdOrFresh,
         settledTransactionId, broadcastCommand, validate,
         organizationId, environmentId.
  destruct (Js.truthy (TriggerEventToAllRequestDto.transactionId body));
    unfold bind, ret, EventsController.callUuidv4, callValidate, await,
           callTriggerEventToAll;
    cbn [fst snd uuidLog triggerEventLog triggerEventToAllLog
         getTopicSubscribersLog createLogLog];
    rewrite ?app_nil_r;
    destruct (TriggerEvent.validateTransactionIdProperty _ _ _ _ _);
    cbn [fst snd uuidLog triggerEventLog triggerEventToAllLog
         getTopicSubscribersLog createLogLog];
    try (destruct (TriggerEventToAll.execute _ _ _));
    cbn [fst snd uuidLog triggerEventLog triggerEventToAllLog
         getTopicSubscribersLog createLogLog];
    repeat split; reflexivity.
Qed.

End ControllerFacts.

(** C6, as the code has it — in both triggers the transaction id is the
    caller's value when that value is truthy, and otherwise (absent, [null]
    or the empty string) the identifier [uuidv4] hands out at that moment,
    the only one drawn.  The first call made with it is the validation; when
    that call rejects, the trigger rejects with the same error having made no
    other call; when it accepts, the one dispatch carries that id. *)
Theorem truthy_transaction_id_kept_else_generated
    SUBSCRIBER uuidv4 this user
    (single : TriggerEventRequestDto.t) (broadcast : TriggerEventToAllRequestDto.t)
    (w : World) :
  let organizationId := IJwtPayload.organizationId user in
  let environmentId := IJwtPayload.environmentId user in
  let validate :=
    TriggerEvent.validateTransactionIdProperty
      (EventsController.triggerEvent this) (triggerEventLog w) in
  let fresh := uuidv4 (uuidLog w) in
  (let given := TriggerEventRequestDto.transactionId single in
   let tid := if Js.truthy given then given else Js.Str fresh in
   let r := EventsController.trackEvent SUBSCRIBER uuidv4 this user single w in
   uuidLog (snd r) = uuidLog w ++ (if Js.truthy given then [] else [fresh])
   /\ match validate tid organizationId environmentId with
      | Throw e =>
          fst r = Throw e
          /\ triggerEventLog (snd r)
             = triggerEventLog w ++ [CallValidate tid organizationId environmentId]
          /\ triggerEventToAllLog (snd r) = triggerEventToAllLog w
          /\ getTopicSubscribersLog (snd r) = getTopicSubscribersLog w
      | Normal _ =>
          exists command,
            TriggerEventCommand.transactionId command = tid
            /\ triggerEventLog (snd r)
               = triggerEventLog w
                 ++ [CallValidate tid organizationId environmentId;
                     CallExecute command]
      end)
  /\
  (let given := TriggerEventToAllRequestDto.transactionId broadcast in
   let tid := if Js.truthy given then given else Js.Str fresh in
   let r := EventsController.trackEventToAll uuidv4 this user broadcast w in
   uuidLog (snd r) = uuidLog w ++ (if Js.truthy given then [] else [fresh])
   /\ triggerEventLog (snd r)
      = triggerEventLog w ++ [CallValidate tid organizationId environmentId]
   /\ match validate tid organizationId environmentId with
      | Throw e =>
          fst r = Throw e
          /\ triggerEventToAllLog (snd r) = triggerEventToAllLog w
          /\ getTopicSubscribersLog (snd r) = getTopicSubscribersLog w
      | Normal _ =>
          exists command,
            TriggerEventToAllCommand.transactionId command = tid
            /\ triggerEventToAllLog (snd r) = triggerEventToAllLog w ++ [command]
      end).
Proof.
  cbn zeta. split.
  - pose proof (trackEvent_run SUBSCRIBER uuidv4 this user single w) as H.
    cbn zeta in H. unfold settledTransactionId in H.
    destruct H as (Hu & Ha & Hg & _ & Hv).
    split; [exact Hu |].
    destruct (TriggerEvent.validateTransactionIdProperty _ _ _ _ _).
    + destruct Hv as [_ Hl]. eexists. split; [| exact Hl]. reflexivity.
    + destruct Hv as [Hr Hl]. repeat split; assumption.
  - pose proof (trackEventToAll_run uuidv4 this user broadcast w) as H.
    cbn zeta in H. unfold settledTransactionId in H.
    destruct H as (Hu & Hl & Hg & _ & Hv).
    split; [exact Hu | split; [exact Hl |]].
    destruct (TriggerEvent.validateTransactionIdProperty _ _ _ _ _).
    + destruct Hv as [_ Ha]. eexists. split; [| exact Ha]. reflexivity.
    + destruct Hv as [Hr Ha]. repeat split; assumption.
Qed.

(** C8, as the code has it — the broadcast trigger makes no resolver
    call and no log write, and the only call it makes to [TriggerEvent] is
    the validation: its body has no recipients and nothing is aggregated or
    mapped per recipient.  It settles and validates the transaction id
    exactly as the single trigger does on a body with the same fields.  The
    actor is not skipped: it is mapped as in the single trigger (a falsy
    actor becomes [undefined], a bare id [s] becomes [{subscriberId: s}],
    any other actor is kept), and goes into the command with the caller's
    ids, the body's name and payload, and overrides that default to [{}]. *)
Theorem broadcast_skips_recipients_maps_actor
    SUBSCRIBER uuidv4 this user (body : TriggerEventToAllRequestDto.t)
    (to : Js.value) (w : World) :
  let organizationId := IJwtPayload.organizationId user in
  let environmentId := IJwtPayload.environmentId user in
  let given := TriggerEventToAllRequestDto.transactionId body in
  let tid := if Js.truthy given then given else Js.Str (uuidv4 (uuidLog w)) in
  let validation := CallValidate tid organizationId environmentId in
  let actor := TriggerEventToAllRequestDto.actor body in
  let mappedActor :=
    if Js.truthy actor
    then match actor with
         | Js.Str id => Js.Obj [("subscriberId", Js.Str id)]
         | structured => structured
         end
    else Js.Undefined in
  let overrides := TriggerEventToAllRequestDto.overrides body in
  let r := EventsController.trackEventToAll uuidv4 this user body w in
  let s :=
    EventsController.trackEvent SUBSCRIBER uuidv4 this user (singleOf body to) w in
  getTopicSubscribersLog (snd r) = getTopicSubscribersLog w
  /\ createLogLog (snd r) = createLogLog w
  /\ triggerEventLog (snd r) = triggerEventLog w ++ [validation]
  /\ uuidLog (snd r) = uuidLog (snd s)
  /\ firstn (S (List.length (triggerEventLog w))) (triggerEventLog (snd s))
     = triggerEventLog (snd r)
  /\ match TriggerEvent.validateTransactionIdProperty
             (EventsController.triggerEvent this) (triggerEventLog w)
             tid organizationId environmentId with
     | Throw e => fst r = Throw e /\ fst s = Throw e
     | Normal _ =>
         triggerEventToAllLog (snd r)
         = triggerEventToAllLog w
           ++ [TriggerEventToAllCommand.create
                 (IJwtPayload._id user) environmentId organizationId
                 (TriggerEventToAllRequestDto.name body)
                 (TriggerEventToAllRequestDto.payload body)
                 tid
                 (if Js.truthy overrides then overrides else Js.Obj [])
                 mappedActor]
         /\ exists sent,
              triggerEventLog (snd s)
              = triggerEventLog w ++ [validation; CallExecute sent]
              /\ TriggerEventCommand.actor sent = mappedActor
     end.
Proof.
  cbn zeta.
  pose proof (trackEventToAll_run uuidv4 this user body w) as H.
  pose proof (trackEvent_run SUBSCRIBER uuidv4 this user (singleOf body to) w) as K.
  cbn zeta in H, K. cbn [singleOf TriggerEventRequestDto.transactionId] in K.
  unfold settledTransactionId in H, K.
  destruct H as (Hu & Hl & Hg & Hc & Hv).
  destruct K as (Ku & _ & _ & _ & Kv).
  split; [exact Hg | split; [exact Hc | split; [exact Hl |]]].
  split; [now rewrite Hu, Ku |].
  rewrite Hl.
  assert (Hfirst : forall (l : list TriggerEventCall) x rest,
             firstn (S (List.length l)) (l ++ x :: rest) = l ++ [x]).
  { intros l x rest.
    replace (S (List.length l)) with (List.length l + 1) by lia.
    rewrite firstn_app_2. reflexivity. }
  assert (Hactor : forall actor,
            EventsController.mapActor actor
            = if Js.truthy actor
              then match actor with
                   | Js.Str id => Js.Obj [("subscriberId", Js.Str id)]
                   | structured => structured
                   end
              else Js.Undefined).
  { intros actor. unfold EventsController.mapActor.
    destruct (Js.truthy actor); [| reflexivity].
    destruct actor; reflexivity. }
  destruct (TriggerEvent.validateTransactionIdProperty _ _ _ _ _).
  - destruct Hv as [_ Ha], Kv as [_ Kl]. rewrite Kl.
    split; [apply Hfirst |].
    split.
    + rewrite Ha. unfold broadcastCommand, Js.or. now rewrite Hactor.
    + eexists. split; [reflexivity |].
      unfold dispatchedCommand. cbn [TriggerEventCommand.actor singleOf
                                     TriggerEventRequestDto.actor].
      apply Hactor.
  - destruct Hv as [Hr _], Kv as [Kr Kl]. rewrite Kl.
    split; [apply Hfirst | split; assumption].
Qed.

(** C4, as the code has it — an actor that is a topic reference is not
    rejected: [mapActor] hands it on unchanged, the only rejection that can
    precede the dispatch is that of the transaction id, and once the id is
    accepted the command is dispatched with the topic reference as its
    actor.  No resolver call is made. *)
Theorem topic_actor_passes_through
    SUBSCRIBER TOPIC uuidv4 this user (body : TriggerEventRequestDto.t) (w : World) :
  MapTriggerRecipients.isTopic TOPIC (TriggerEventRequestDto.actor body) = true ->
  let organizationId := IJwtPayload.organizationId user in
  let environmentId := IJwtPayload.environmentId user in
  let actor := TriggerEventRequestDto.actor body in
  let tid :=
    settledTransactionId uuidv4 (TriggerEventRequestDto.transactionId body) w in
  let validation := CallValidate tid organizationId environmentId in
  let command := dispatchedCommand SUBSCRIBER user body tid in
  let r := EventsController.trackEvent SUBSCRIBER uuidv4 this user body w in
  EventsController.mapActor actor = actor
  /\ TriggerEventCommand.actor command = actor
  /\ getTopicSubscribersLog (snd r) = getTopicSubscribersLog w
  /\ match TriggerEvent.validateTransactionIdProperty
             (EventsController.triggerEvent this) (triggerEventLog w)
             tid organizationId environmentId with
     | Throw e => fst r = Throw e
     | Normal _ =>
         fst r = TriggerEvent.execute (EventsController.triggerEvent this)
                   (triggerEventLog w ++ [validation]) command
         /\ triggerEventLog (snd r)
            = triggerEventLog w ++ [validation; CallExecute command]
     end.
Proof.
  intros Htopic. cbn zeta.
  assert (Hactor : EventsController.mapActor (TriggerEventRequestDto.actor body)
                   = TriggerEventRequestDto.actor body).
  { unfold MapTriggerRecipients.isTopic in Htopic.
    destruct (TriggerEventRequestDto.actor body); try discriminate.
    reflexivity. }
  pose proof (trackEvent_run SUBSCRIBER uuidv4 this user body w) as H.
  cbn zeta in H. destruct H as (_ & _ & Hg & _ & Hv).
  split; [exact Hactor | split; [exact Hactor | split; [exact Hg |]]].
  destruct (TriggerEvent.validateTransactionIdProperty _ _ _ _ _).
  - exact Hv.
  - exact (proj1 Hv).
Qed.

(** ** The claims on sample requests *)

Section Samples.

Import Sample.

(** C1, at a failing input — for the recipients ["u1", topic t1], where
    [t1] has the two members [a] and [b], the trigger dispatches the one
    direct entry and asks the resolver nothing, while [execute] on the same
    recipients resolves three subscribers. *)
Theorem trackEvent_drops_topic_reference :
  let recipients := Js.Arr [Js.Str "u1"; topic "t1"] in
  let r :=
    EventsController.trackEvent SUBSCRIBER uuidv4 controller user
      (body recipients Js.Undefined) emptyWorld in
  triggerEventLog (snd r)
  = [CallValidate (Js.Str "tx-1") "org-1" "env-1";
     CallExecute
       (TriggerEventCommand.create "user-1" "env-1" "org-1"
          (Js.Str "welcome") (Js.Obj []) (Js.Obj [])
          [Js.Obj [("subscriberId", Js.Str "u1")]]
          Js.Undefined (Js.Str "tx-1"))]
  /\ getTopicSubscribersLog (snd r) = []
  /\ fst (MapTriggerRecipients.execute TOPIC ERROR TOPIC_SUBSCRIBERS_ERROR mapper
            (command recipients) emptyWorld)
     = Normal [Js.Obj [("subscriberId", Js.Str "u1")];
               Js.Obj [("subscriberId", Js.Str "a")];
               Js.Obj [("subscriberId", Js.Str "b")]].
Proof. cbn zeta. repeat split; reflexivity. Qed.

(** C4, refuted — a trigger whose actor is the topic reference [t9] is
    acknowledged, and the engine receives that reference as the actor. *)
Lemma actor_topic_reference_is_dispatched :
  let r :=
    EventsController.trackEvent SUBSCRIBER uuidv4 controller user
      (body (Js.Arr [Js.Str "u1"]) (topic "t9")) emptyWorld in
  isThrow (fst r) = false
  /\ triggerEventLog (snd r)
     = [CallValidate (Js.Str "tx-1") "org-1" "env-1";
        CallExecute
          (TriggerEventCommand.create "user-1" "env-1" "org-1"
             (Js.Str "welcome") (Js.Obj []) (Js.Obj [])
             [Js.Obj [("subscriberId", Js.Str "u1")]]
             (topic "t9") (Js.Str "tx-1"))].
Proof. cbn zeta. split; reflexivity. Qed.

(** C5, at a failing input — an object tagged with the unrecognised
    type [Future], neither the topic marker nor the subscriber tag, is
    dropped by the trigger's aggregation, so that the command dispatched has
    no recipient, while [findSubscribers] keeps the same entry as a direct
    one. *)
Theorem unknown_tag_dropped_by_trigger :
  let entry := Js.Obj [("type", Js.Str "Future"); ("subscriberId", Js.Str "u1")] in
  let r :=
    EventsController.trackEvent SUBSCRIBER uuidv4 controller user
      (body (Js.Arr [entry]) Js.Undefined) emptyWorld in
  Js.eqStr (Js.get entry "type") TOPIC = false
  /\ Js.eqStr (Js.get entry "type") SUBSCRIBER = false
  /\ EventsController.aggregateSubscribers SUBSCRIBER
       (body (Js.Arr [entry]) Js.Undefined) = []
  /\ triggerEventLog (snd r)
     = [CallValidate (Js.Str "tx-1") "org-1" "env-1";
        CallExecute
          (TriggerEventCommand.create "user-1" "env-1" "org-1"
             (Js.Str "welcome") (Js.Obj []) (Js.Obj [])
             [] Js.Undefined (Js.Str "tx-1"))]
  /\ MapTriggerRecipients.findSubscribers TOPIC [entry] = [entry].
Proof. cbn zeta. repeat split; reflexivity. Qed.

(** C6, refuted — a trigger whose body carries the empty string as its
    transaction id is not run under that id: one identifier is drawn from
    [uuidv4], and it is the one validated and dispatched. *)
Lemma empty_transaction_id_is_replaced :
  let request :=
    {| TriggerEventRequestDto.name := Js.Str "welcome";
       TriggerEventRequestDto.payload := Js.Obj [];
       TriggerEventRequestDto.overrides := Js.Undefined;
       TriggerEventRequestDto.to := Js.Arr [Js.Str "u1"];
       TriggerEventRequestDto.actor := Js.Undefined;
       TriggerEventRequestDto.transactionId := Js.Str "" |} in
  let r :=
    EventsController.trackEvent SUBSCRIBER uuidv4 controller user request
      emptyWorld in
  uuidLog (snd r) = ["d2239acb-e879-4bdb-ab6f-365b43278d8f"]
  /\ triggerEventLog (snd r)
     = [CallValidate (Js.Str "d2239acb-e879-4bdb-ab6f-365b43278d8f")
          "org-1" "env-1";
        CallExecute
          (TriggerEventCommand.create "user-1" "env-1" "org-1"
             (Js.Str "welcome") (Js.Obj []) (Js.Obj [])
             [Js.Obj [("subscriberId", Js.Str "u1")]]
             Js.Undefined (Js.Str "d2239acb-e879-4bdb-ab6f-365b43278d8f"))]
  /\ fst r
     = Normal (acknowledgement (Js.Str "d2239acb-e879-4bdb-ab6f-365b43278d8f")).
Proof. cbn zeta. repeat split; reflexivity. Qed.

(** C8, refuted — a broadcast whose actor is the bare id [u9] runs the
    actor through the subscriber mapping: the command handed to the broadcast
    engine carries [{subscriberId: "u9"}]. *)
Lemma broadcast_maps_the_actor :
  let request :=
    {| TriggerEventToAllRequestDto.name := Js.Str "welcome";
       TriggerEventToAllRequestDto.payload := Js.Obj [];
       TriggerEventToAllRequestDto.overrides := Js.Undefined;
       TriggerEventToAllRequestDto.actor := Js.Str "u9";
       TriggerEventToAllRequestDto.transactionId := Js.Str "tx-1" |} in
  let r :=
    EventsController.trackEventToAll uuidv4 controller user request emptyWorld in
  triggerEventToAllLog (snd r)
  = [TriggerEventToAllCommand.create "user-1" "env-1" "org-1"
       (Js.Str "welcome") (Js.Obj []) (Js.Str "tx-1") (Js.Obj [])
       (Js.Obj [("subscriberId", Js.Str "u9")])]
  /\ EventsController.mapSubscriber (Js.Str "u9")
     = Js.Obj [("subscriberId", Js.Str "u9")].
Proof. cbn zeta. split; reflexivity. Qed.


End Samples.

Section Witnesses.

Import Sample.

(** Topics [t1], [t2], [t3] after one direct entry; the lookup of [t2]
    fails. *)
Lemma execute_isolates_failed_topic_witness :
  let recipients := [Js.Str "u1"; topic "t1"; topic "t2"; topic "t3"] in
  let cmd := commandOf "env-1" "org-1" "user-1" in
  let r :=
    MapTriggerRecipients.execute TOPIC ERROR TOPIC_SUBSCRIBERS_ERROR mapper
      (command (Js.Arr recipients)) emptyWorld in
  MapTriggerRecipients.findTopics TOPIC recipients
  = [topic "t1"] ++ topic "t2" :: [topic "t3"]
  /\ GetTopicSubscribersUseCase.execute resolver
       ([] ++ map cmd [topic "t1"]) (cmd (topic "t2"))
     = Throw (Js.Str "topic not found")
  /\ fst r = Normal [Js.Obj [("subscriberId", Js.Str "u1")];
                     Js.Obj [("subscriberId", Js.Str "a")];
                     Js.Obj [("subscriberId", Js.Str "b")];
                     Js.Obj [("subscriberId", Js.Str "c")]]
  /\ createLogLog (snd r)
     = [CreateLogCommand.create "tx-1" ERROR "env-1" "org-1"
          "Failed retrieving topic subscribers" "user-1"
          TOPIC_SUBSCRIBERS_ERROR (Js.Obj [("topicId", Js.Str "t2")])]
  /\ getTopicSubscribersLog (snd r)
     = [cmd (topic "t1"); cmd (topic "t2"); cmd (topic "t3")].
Proof.
  cbn zeta.
  split; [reflexivity | split; [reflexivity |]].
  exact (execute_isolates_failed_topic TOPIC ERROR TOPIC_SUBSCRIBERS_ERROR mapper
           (command (Js.Arr [Js.Str "u1"; topic "t1"; topic "t2"; topic "t3"]))
           emptyWorld [topic "t1"] (topic "t2") [topic "t3"]
           (Js.Str "topic not found") eq_refl eq_refl).
Defined.

(** The bare id [u1] as the whole of [to]. *)
Lemma single_recipient_as_singleton_witness :
  Js.isArray (Js.Str "u1") = false
  /\ EventsController.aggregateSubscribers SUBSCRIBER
       (withTo (body Js.Undefined Js.Undefined) (Js.Str "u1"))
     = EventsController.aggregateSubscribers SUBSCRIBER
         (withTo (body Js.Undefined Js.Undefined) (Js.Arr [Js.Str "u1"]))
  /\ EventsController.trackEvent SUBSCRIBER uuidv4 controller user
       (withTo (body Js.Undefined Js.Undefined) (Js.Str "u1"))
     = EventsController.trackEvent SUBSCRIBER uuidv4 controller user
         (withTo (body Js.Undefined Js.Undefined) (Js.Arr [Js.Str "u1"]))
  /\ MapTriggerRecipients.execute TOPIC ERROR TOPIC_SUBSCRIBERS_ERROR mapper
       (withRecipients (command Js.Undefined) (Js.Str "u1"))
     = MapTriggerRecipients.execute TOPIC ERROR TOPIC_SUBSCRIBERS_ERROR mapper
         (withRecipients (command Js.Undefined) (Js.Arr [Js.Str "u1"])).
Proof.
  split; [reflexivity |].
  exact (single_recipient_as_singleton SUBSCRIBER TOPIC ERROR
           TOPIC_SUBSCRIBERS_ERROR uuidv4 controller user mapper
           (body Js.Undefined Js.Undefined) (command Js.Undefined)
           (Js.Str "u1") eq_refl).
Defined.

(** The topic reference [t9] as the actor. *)
Lemma topic_actor_passes_through_witness :
  let request := body (Js.Arr [Js.Str "u1"]) (topic "t9") in
  let r :=
    EventsController.trackEvent SUBSCRIBER uuidv4 controller user request
      emptyWorld in
  MapTriggerRecipients.isTopic TOPIC (TriggerEventRequestDto.actor request) = true
  /\ EventsController.mapActor (topic "t9") = topic "t9"
  /\ TriggerEventCommand.actor
       (dispatchedCommand SUBSCRIBER user request (Js.Str "tx-1")) = topic "t9"
  /\ getTopicSubscribersLog (snd r) = []
  /\ fst r = Normal (acknowledgement (Js.Str "tx-1"))
  /\ triggerEventLog (snd r)
     = [CallValidate (Js.Str "tx-1") "org-1" "env-1";
        CallExecute (dispatchedCommand SUBSCRIBER user request (Js.Str "tx-1"))].
Proof.
  cbn zeta. split; [reflexivity |].
  exact (topic_actor_passes_through SUBSCRIBER TOPIC uuidv4 controller user
           (body (Js.Arr [Js.Str "u1"]) (topic "t9")) emptyWorld eq_refl).
Defined.


End Witnesses.

(** ** Further properties of the recipient helpers *)

(** The aggregation filters the recipients taken as a list. *)
Lemma aggregateSubscribers_asList SUBSCRIBER (body : TriggerEventRequestDto.t) :
  EventsController.aggregateSubscribers SUBSCRIBER body
  = filter
      (fun element =>
         if Js.isString element || negb (Js.truthy (Js.get element "type"))
         then true
         else Js.eqStr (Js.get element "type") SUBSCRIBER)
      (asList (TriggerEventRequestDto.to body)).
Proof.
  unfold EventsController.aggregateSubscribers.
  destruct (TriggerEventRequestDto.to body); reflexivity.
Qed.

(** X1 — [mapSubscriber] never yields a bare id, leaves its own results
    untouched, and is the same function in both classes; [mapSubscribers]
    keeps the number of entries. *)
Theorem mapSubscriber_normal_form (value : Js.value) (values : list Js.value) :
  Js.isString (EventsController.mapSubscriber value) = false
  /\ EventsController.mapSubscriber (EventsController.mapSubscriber value)
     = EventsController.mapSubscriber value
  /\ MapTriggerRecipients.mapSubscriber value = EventsController.mapSubscriber value
  /\ EventsController.mapSubscribers (EventsController.mapSubscribers values)
     = EventsController.mapSubscribers values
  /\ List.length (EventsController.mapSubscribers values) = List.length values.
Proof.
  assert (Hidem : forall v,
             EventsController.mapSubscriber (EventsController.mapSubscriber v)
             = EventsController.mapSubscriber v)
    by (intros v; destruct v; reflexivity).
  repeat split.
  - destruct value; reflexivity.
  - apply Hidem.
  - unfold EventsController.mapSubscribers. rewrite map_map.
    apply map_ext. exact Hidem.
  - apply length_map.
Qed.

(** X2 — [mapActor] answers [undefined] exactly for the falsy actors
    (absent, [null], the empty string, [0], [false]), answers what
    [mapSubscriber] does for every other one, and never answers a bare id. *)
Theorem mapActor_undefined_iff_falsy (actor : Js.value) :
  (EventsController.mapActor actor = Js.Undefined <-> Js.truthy actor = false)
  /\ (if Js.truthy actor
      then EventsController.mapActor actor = EventsController.mapSubscriber actor
      else EventsController.mapActor actor = Js.Undefined)
  /\ Js.isString (EventsController.mapActor actor) = false.
Proof.
  unfold EventsController.mapActor.
  destruct actor as [| | b | z | s | fields | items]; cbn;
    try (repeat split; (reflexivity || discriminate || tauto)).
  - destruct b; cbn; repeat split; (reflexivity || discriminate || tauto).
  - destruct (z =? 0)%Z; cbn; repeat split; (reflexivity || discriminate || tauto).
  - destruct (s =? ""); cbn; repeat split; (reflexivity || discriminate || tauto).
Qed.

(** X3 — a recipient list of bare ids goes through unchanged: the
    trigger keeps every id, in order, and dispatches one [{subscriberId}]
    per id; the use case finds the same subscribers and no topic. *)
Theorem bare_ids_kept_in_order
    SUBSCRIBER TOPIC (body : TriggerEventRequestDto.t) (ids : list Js.value) :
  forallb Js.isString ids = true ->
  let wrap := fun id => Js.Obj [("subscriberId", id)] in
  EventsController.aggregateSubscribers SUBSCRIBER (withTo body (Js.Arr ids)) = ids
  /\ EventsController.mapSubscribers
       (EventsController.aggregateSubscribers SUBSCRIBER (withTo body (Js.Arr ids)))
     = map wrap ids
  /\ MapTriggerRecipients.findSubscribers TOPIC ids = map wrap ids
  /\ MapTriggerRecipients.findTopics TOPIC ids = [].
Proof.
  intros Hids. cbn zeta.
  unfold EventsController.aggregateSubscribers, EventsController.mapSubscribers,
         MapTriggerRecipients.findSubscribers, MapTriggerRecipients.findTopics.
  cbn [withTo TriggerEventRequestDto.to].
  induction ids as [| id ids IH]; [repeat split; reflexivity |].
  cbn [forallb] in Hids. apply andb_prop in Hids. destruct Hids as [Hid Hids].
  destruct (IH Hids) as (H1 & H2 & H3 & H4).
  destruct id; try discriminate.
  cbn [filter map Js.isString orb MapTriggerRecipients.isNotTopic
       MapTriggerRecipients.isTopic Js.get Js.eqStr].
  rewrite H1 in *. rewrite H3, H4.
  repeat split; try reflexivity.
  cbn [EventsController.mapSubscriber Js.isString]. now rewrite H2.
Qed.

(** X4 — the list the trigger dispatches from never holds a topic
    reference, as soon as the topic marker is a non-empty string other than
    the subscriber tag. *)
Theorem trigger_list_has_no_topic
    SUBSCRIBER TOPIC (body : TriggerEventRequestDto.t) :
  SUBSCRIBER <> TOPIC ->
  TOPIC <> "" ->
  forallb (fun element => negb (MapTriggerRecipients.isTopic TOPIC element))
          (EventsController.aggregateSubscribers SUBSCRIBER body)
  = true.
Proof.
  intros Hdiff Hnonempty.
  unfold EventsController.aggregateSubscribers.
  apply forallb_forall. intros element Hin.
  apply filter_In in Hin. destruct Hin as [_ Hkeep].
  unfold MapTriggerRecipients.isTopic.
  destruct (Js.eqStr (Js.get element "type") TOPIC) eqn:Htopic; [| reflexivity].
  exfalso.
  destruct (Js.get element "type") as [| | b | z | s | fields | items] eqn:Hget;
    try discriminate.
  cbn [Js.eqStr] in Htopic. apply String.eqb_eq in Htopic. subst s.
  destruct element; try discriminate.
  cbn [Js.isString orb Js.truthy Js.eqStr] in Hkeep.
  destruct (String.eqb_spec TOPIC "") as [E | _]; [now apply Hnonempty |].
  cbn [negb] in Hkeep.
  destruct (String.eqb_spec TOPIC SUBSCRIBER) as [E | _];
    [now apply Hdiff | discriminate].
Qed.

Lemma partition_lengths TOPIC (recipients : list Js.value) :
  List.length (filter (MapTriggerRecipients.isNotTopic TOPIC) recipients)
  + List.length (MapTriggerRecipients.findTopics TOPIC recipients)
  = List.length recipients.
Proof.
  unfold MapTriggerRecipients.findTopics.
  induction recipients as [| r rs IH]; [reflexivity |].
  cbn [filter]. rewrite isNotTopic_negb_isTopic.
  destruct (MapTriggerRecipients.isTopic TOPIC r); cbn [negb List.length]; lia.
Qed.

(** X5 — the two classifiers of the use case split the recipients
    without loss: directs and topics together are the recipients, each once. *)
Theorem recipients_partition TOPIC (recipients : list Js.value) :
  Permutation recipients
    (filter (MapTriggerRecipients.isNotTopic TOPIC) recipients
     ++ MapTriggerRecipients.findTopics TOPIC recipients)
  /\ List.length (MapTriggerRecipients.findSubscribers TOPIC recipients)
     + List.length (MapTriggerRecipients.findTopics TOPIC recipients)
     = List.length recipients.
Proof.
  assert (Hperm : Permutation recipients
            (filter (MapTriggerRecipients.isNotTopic TOPIC) recipients
             ++ MapTriggerRecipients.findTopics TOPIC recipients)).
  { unfold MapTriggerRecipients.findTopics.
    induction recipients as [| r rs IH]; [constructor |].
    cbn [filter]. rewrite isNotTopic_negb_isTopic.
    destruct (MapTriggerRecipients.isTopic TOPIC r); cbn [negb].
    - now apply Permutation_cons_app.
    - cbn [app]. now constructor. }
  split; [exact Hperm |].
  unfold MapTriggerRecipients.findSubscribers. rewrite length_map.
  rewrite <- length_app. symmetry. now apply Permutation_length.
Qed.

(** X6 — on recipients whose [type] is absent or one of the two enum
    values, the list the trigger dispatches is the direct part the use case
    computes. *)
Theorem trigger_list_is_direct_part
    SUBSCRIBER TOPIC (body : TriggerEventRequestDto.t) :
  SUBSCRIBER <> TOPIC ->
  TOPIC <> "" ->
  forallb (withinEnum SUBSCRIBER TOPIC) (asList (TriggerEventRequestDto.to body))
  = true ->
  EventsController.mapSubscribers
    (EventsController.aggregateSubscribers SUBSCRIBER body)
  = MapTriggerRecipients.findSubscribers TOPIC
      (asList (TriggerEventRequestDto.to body)).
Proof.
  intros Hdiff Hnonempty Htags.
  revert Htags.
  rewrite aggregateSubscribers_asList.
  unfold EventsController.mapSubscribers, MapTriggerRecipients.findSubscribers.
  induction (asList (TriggerEventRequestDto.to body)) as [| element rest IH];
    intros Htags; [reflexivity |].
  cbn [forallb] in Htags. apply andb_prop in Htags. destruct Htags as [Htag Hrest].
  specialize (IH Hrest).
  cbn [filter].
  assert (Hsame :
            (if Js.isString element || negb (Js.truthy (Js.get element "type"))
             then true
             else Js.eqStr (Js.get element "type") SUBSCRIBER)
            = MapTriggerRecipients.isNotTopic TOPIC element).
  { unfold MapTriggerRecipients.isNotTopic.
    unfold withinEnum in Htag. revert Htag.
    destruct (Js.isString element); [reflexivity |].
    cbn [orb].
    destruct (Js.get element "type") as [| | b | z | s | fields | items];
      cbn [Js.truthy Js.eqStr negb orb]; intros Htag; try reflexivity;
      try discriminate.
    - destruct b; [discriminate | reflexivity].
    - destruct (z =? 0)%Z; [reflexivity | discriminate].
    - destruct (String.eqb_spec s "") as [Hs | Hs]; cbn [negb orb] in *.
      + subst s. destruct (String.eqb_spec "" TOPIC) as [E | _];
          [now symmetry in E | reflexivity].
      + destruct (String.eqb_spec s SUBSCRIBER) as [Hsub | Hsub]; cbn [orb] in *.
        * subst s. destruct (String.eqb_spec SUBSCRIBER TOPIC) as [E | _];
            [contradiction | reflexivity].
        * now rewrite Htag. }
  rewrite Hsame.
  destruct (MapTriggerRecipients.isNotTopic TOPIC element); cbn [map];
    now rewrite IH.
Qed.

(** ** Further properties of [MapTriggerRecipients.execute] *)

(** What one log write leaves behind: nothing on the console, and one
    reaction on the promise of the write. *)
Lemma logTopicSubscribersError_reactions ERROR CODE this payload w :
  let record :=
    CreateLogCommand.create
      (ILogTopicSubscribersPayload.transactionId payload) ERROR
      (ILogTopicSubscribersPayload.environmentId payload)
      (ILogTopicSubscribersPayload.organizationId payload)
      "Failed retrieving topic subscribers"
      (ILogTopicSubscribersPayload.userId payload) CODE
      (Js.Obj [("topicId", ILogTopicSubscribersPayload.topicId payload)]) in
  let r := MapTriggerRecipients.logTopicSubscribersError ERROR CODE this payload w in
  consoleLog (snd r) = consoleLog w
  /\ reactions (snd r)
     = reactions w
       ++ [CatchConsoleError
             (CreateLog.execute (MapTriggerRecipients.createLog this)
                (createLogLog w) record)].
Proof.
  unfold MapTriggerRecipients.logTopicSubscribersError, bind, callCreateLog,
         catchWithConsoleError.
  cbn. split; reflexivity.
Qed.

Section ReactionFacts.

Variables ERROR CODE : string.
Variable this : MapTriggerRecipients.t.
Variables transactionId environmentId organizationId userId : string.

Let resolver := MapTriggerRecipients.getTopicSubscribers this.
Let sink := MapTriggerRecipients.createLog this.
Let loop :=
  MapTriggerRecipients.forOfTopics ERROR CODE this
    transactionId environmentId organizationId userId.
Let cmd := commandOf environmentId organizationId userId.
Let logOf := failureLogOf ERROR CODE transactionId environmentId organizationId userId.

(** The console and the pending reactions after the loop. *)
Lemma forOfTopics_reactions (topics : list Js.value) :
  forall (acc : list Js.value) (w : World),
    let answered := answers resolver (getTopicSubscribersLog w) (map cmd topics) in
    consoleLog (snd (loop topics acc w)) = consoleLog w
    /\ reactions (snd (loop topics acc w))
       = reactions w
         ++ map CatchConsoleError
              (writes sink (createLogLog w)
                 (map logOf (failedTopics topics answered))).
Proof.
  induction topics as [| topic rest IH]; intros acc w; cbn zeta.
  - cbn. now rewrite app_nil_r.
  - unfold loop. rewrite forOfTopics_cons. fold loop. cbn zeta.
    cbn [callGetTopicSubscribers snd map answers].
    unfold failedTopics. cbn [combine].
    fold resolver. fold cmd.
    destruct (GetTopicSubscribersUseCase.execute resolver
                (getTopicSubscribersLog w) (cmd topic)) as [response | error];
      cbn [filter snd fst isThrow map].
    + destruct (IH (acc ++ map (fun subscriber =>
                                  Js.Obj [("subscriberId", Js.Str subscriber)])
                               (TopicSubscribersResponse.subscribers response))
                   (mkWorld (uuidLog w) (triggerEventLog w)
                      (triggerEventToAllLog w)
                      (getTopicSubscribersLog w ++ [cmd topic])
                      (createLogLog w) (consoleLog w) (reactions w)))
        as [Hc Hr].
      cbn zeta in Hc, Hr. split; [exact Hc | exact Hr].
    + match goal with
      | |- context [MapTriggerRecipients.logTopicSubscribersError ?E ?C ?t ?p ?w1] =>
          pose proof (logTopicSubscribersError_run E C t p w1) as Hlog;
          pose proof (logTopicSubscribersError_reactions E C t p w1) as Hcon;
          destruct (MapTriggerRecipients.logTopicSubscribersError E C t p w1)
            as [c w2]
      end.
      cbn zeta in Hlog, Hcon.
      cbn [fst snd callGetTopicSubscribers getTopicSubscribersLog createLogLog
           consoleLog reactions
           ILogTopicSubscribersPayload.transactionId
           ILogTopicSubscribersPayload.environmentId
           ILogTopicSubscribersPayload.organizationId
           ILogTopicSubscribersPayload.userId
           ILogTopicSubscribersPayload.topicId] in Hlog, Hcon.
      destruct Hlog as (_ & _ & _ & _ & Hg2 & Hl2).
      destruct Hcon as [Hc2 Hr2].
      cbn [snd]. destruct (IH acc w2) as [Hc Hr]. cbn zeta in Hc, Hr.
      rewrite Hc, Hr, Hg2, Hl2, Hc2, Hr2.
      split; [reflexivity |].
      cbn [writes map]. rewrite <- app_assoc. reflexivity.
Qed.

End ReactionFacts.

(** The console and the pending reactions after [execute]. *)
Lemma execute_reactions TOPIC ERROR CODE this command w :
  let recipients := asList (MapTriggerRecipientsCommand.recipients command) in
  let cmd :=
    commandOf (MapTriggerRecipientsCommand.environmentId command)
              (MapTriggerRecipientsCommand.organizationId command)
              (MapTriggerRecipientsCommand.userId command) in
  let logOf :=
    failureLogOf ERROR CODE
      (MapTriggerRecipientsCommand.transactionId command)
      (MapTriggerRecipientsCommand.environmentId command)
      (MapTriggerRecipientsCommand.organizationId command)
      (MapTriggerRecipientsCommand.userId command) in
  let topics := MapTriggerRecipients.findTopics TOPIC recipients in
  let answered :=
    answers (MapTriggerRecipients.getTopicSubscribers this)
            (getTopicSubscribersLog w) (map cmd topics) in
  let r := MapTriggerRecipients.execute TOPIC ERROR CODE this command w in
  consoleLog (snd r) = consoleLog w
  /\ reactions (snd r)
     = reactions w
       ++ map CatchConsoleError
            (writes (MapTriggerRecipients.createLog this) (createLogLog w)
               (map logOf (failedTopics topics answered))).
Proof.
  cbn zeta.
  pose proof (forOfTopics_reactions ERROR CODE this
                (MapTriggerRecipientsCommand.transactionId command)
                (MapTriggerRecipientsCommand.environmentId command)
                (MapTriggerRecipientsCommand.organizationId command)
                (MapTriggerRecipientsCommand.userId command)
                (MapTriggerRecipients.findTopics TOPIC
                   (asList (MapTriggerRecipientsCommand.recipients command)))
                [] w) as H.
  cbn zeta in H. destruct H as [Hc Hr]. rewrite <- Hc, <- Hr.
  unfold MapTriggerRecipients.execute,
         MapTriggerRecipients.getSubscribersFromAllTopics, bind.
  destruct (MapTriggerRecipientsCommand.recipients command); cbn [asList];
    match goal with
    | |- context [MapTriggerRecipients.forOfTopics ?a ?b ?c ?d ?e ?f ?g ?h ?i ?j] =>
        destruct (MapTriggerRecipients.forOfTopics a b c d e f g h i j) as [[x | x] w']
    end; split; reflexivity.
Qed.

(** [execute] over the recipients taken as a list. *)
Lemma execute_asList TOPIC ERROR CODE this command :
  MapTriggerRecipients.execute TOPIC ERROR CODE this command
  = (let recipients := asList (MapTriggerRecipientsCommand.recipients command) in
     topicSubscribers <-
       MapTriggerRecipients.getSubscribersFromAllTopics TOPIC ERROR CODE this
         (MapTriggerRecipientsCommand.transactionId command)
         (MapTriggerRecipientsCommand.environmentId command)
         (MapTriggerRecipientsCommand.organizationId command)
         (MapTriggerRecipientsCommand.userId command) recipients ;;
     ret (MapTriggerRecipients.findSubscribers TOPIC recipients ++ topicSubscribers)).
Proof.
  unfold MapTriggerRecipients.execute.
  destruct (MapTriggerRecipientsCommand.recipients command); reflexivity.
Qed.

Lemma no_topics_all_direct TOPIC (recipients : list Js.value) :
  MapTriggerRecipients.findTopics TOPIC recipients = [] ->
  filter (MapTriggerRecipients.isNotTopic TOPIC) recipients = recipients.
Proof.
  unfold MapTriggerRecipients.findTopics.
  induction recipients as [| r rs IH]; intros H; [reflexivity |].
  cbn [filter] in *. rewrite isNotTopic_negb_isTopic.
  destruct (MapTriggerRecipients.isTopic TOPIC r); [discriminate |].
  cbn [negb]. now rewrite IH.
Qed.

Lemma contribution_length (answered : list (Completion TopicSubscribersResponse.t)) :
  List.length (flat_map contribution answered) = memberCount answered.
Proof.
  unfold memberCount.
  induction answered as [| a rest IH]; [reflexivity |].
  cbn [flat_map map list_sum]. rewrite length_app, IH.
  destruct a; cbn [contribution]; [now rewrite length_map | reflexivity].
Qed.

Lemma failedTopics_length (topics : list Js.value) :
  forall answered,
    List.length topics = List.length answered ->
    List.length (failedTopics topics answered) = failureCount answered.
Proof.
  unfold failedTopics, failureCount.
  induction topics as [| t ts IH]; intros [| a rest] Hlen; cbn in Hlen;
    try discriminate; [reflexivity |].
  injection Hlen as Hlen. specialize (IH rest Hlen).
  cbn [combine filter snd]. destruct (isThrow a); cbn [map List.length];
    now rewrite IH.
Qed.

Lemma contribution_entries (answered : list (Completion TopicSubscribersResponse.t)) :
  Forall (fun entry => exists member,
              entry = Js.Obj [("subscriberId", Js.Str member)])
         (flat_map contribution answered).
Proof.
  apply Forall_forall. intros entry Hin.
  apply in_flat_map in Hin. destruct Hin as (answer & _ & Hin).
  destruct answer as [response | error]; cbn [contribution] in Hin; [| contradiction].
  apply in_map_iff in Hin. destruct Hin as (member & <- & _). now exists member.
Qed.

Lemma execute_on_plain_list
    TOPIC ERROR CODE this command (recipients : list Js.value) w :
  MapTriggerRecipients.findTopics TOPIC recipients = [] ->
  MapTriggerRecipients.execute TOPIC ERROR CODE this
    (withRecipients command (Js.Arr recipients)) w
  = (Normal (map MapTriggerRecipients.mapSubscriber recipients), w).
Proof.
  intros Hnone.
  rewrite execute_asList. cbn zeta.
  cbn [withRecipients MapTriggerRecipientsCommand.recipients asList].
  unfold MapTriggerRecipients.getSubscribersFromAllTopics,
         MapTriggerRecipients.findSubscribers.
  rewrite Hnone, (no_topics_all_direct _ _ Hnone).
  cbn. now rewrite app_nil_r.
Qed.

(** X7 — with no topic reference among the recipients (the empty list
    included), [execute] calls no collaborator at all: it leaves the world as
    it found it and returns every recipient, mapped, in input order. *)
Theorem execute_without_topics_is_pure TOPIC ERROR CODE this command w :
  let recipients := asList (MapTriggerRecipientsCommand.recipients command) in
  MapTriggerRecipients.findTopics TOPIC recipients = [] ->
  MapTriggerRecipients.execute TOPIC ERROR CODE this command w
  = (Normal (map MapTriggerRecipients.mapSubscriber recipients), w).
Proof.
  cbn zeta. intros Hnone.
  rewrite execute_asList. cbn zeta.
  unfold MapTriggerRecipients.getSubscribersFromAllTopics,
         MapTriggerRecipients.findSubscribers.
  rewrite Hnone, (no_topics_all_direct _ _ Hnone).
  cbn. now rewrite app_nil_r.
Qed.

(** X8 — nothing is merged or dropped on the way: the resolved list has
    one entry per direct recipient plus one per member returned by the
    answered lookups; the resolver is called once per topic reference; one
    log record is written per rejected lookup. *)
Theorem execute_counts TOPIC ERROR CODE this command w :
  let recipients := asList (MapTriggerRecipientsCommand.recipients command) in
  let cmd :=
    commandOf (MapTriggerRecipientsCommand.environmentId command)
              (MapTriggerRecipientsCommand.organizationId command)
              (MapTriggerRecipientsCommand.userId command) in
  let topics := MapTriggerRecipients.findTopics TOPIC recipients in
  let answered :=
    answers (MapTriggerRecipients.getTopicSubscribers this)
            (getTopicSubscribersLog w) (map cmd topics) in
  let r := MapTriggerRecipients.execute TOPIC ERROR CODE this command w in
  exists resolved,
    fst r = Normal resolved
    /\ List.length resolved
       = List.length (filter (MapTriggerRecipients.isNotTopic TOPIC) recipients)
         + memberCount answered
    /\ List.length (getTopicSubscribersLog (snd r))
       = List.length (getTopicSubscribersLog w) + List.length topics
    /\ List.length (createLogLog (snd r))
       = List.length (createLogLog w) + failureCount answered
    /\ List.length topics + List.length resolved
       = List.length recipients + memberCount answered.
Proof.
  cbn zeta.
  pose proof (execute_run TOPIC ERROR CODE this command w) as H.
  cbn zeta in H. destruct H as (Hr & Hg & Hl & _).
  eexists. split; [exact Hr |].
  rewrite Hg, Hl, !length_app, !length_map, contribution_length.
  rewrite failedTopics_length by (now rewrite answers_length, length_map).
  unfold MapTriggerRecipients.findSubscribers. rewrite length_map.
  repeat split; try reflexivity.
  pose proof (partition_lengths TOPIC
                (asList (MapTriggerRecipientsCommand.recipients command))) as Hp.
  lia.
Qed.

Lemma isNotTopic_mapSubscriber TOPIC (recipient : Js.value) :
  MapTriggerRecipients.isNotTopic TOPIC recipient = true ->
  MapTriggerRecipients.isNotTopic TOPIC
    (MapTriggerRecipients.mapSubscriber recipient) = true
  /\ Js.isString (MapTriggerRecipients.mapSubscriber recipient) = false.
Proof.
  destruct recipient; intros H; split; try reflexivity; exact H.
Qed.

Lemma mapSubscriber_fixes_objects (entries : list Js.value) :
  forallb (fun entry => negb (Js.isString entry)) entries = true ->
  map MapTriggerRecipients.mapSubscriber entries = entries.
Proof.
  induction entries as [| e es IH]; intros H; [reflexivity |].
  cbn [forallb] in H. apply andb_prop in H. destruct H as [He Hes].
  cbn [map]. rewrite (IH Hes).
  destruct e; try reflexivity; discriminate.
Qed.

(** The resolved list holds no bare id and no topic reference. *)
Lemma resolved_entries TOPIC (recipients : list Js.value)
    (answered : list (Completion TopicSubscribersResponse.t)) :
  let resolved :=
    MapTriggerRecipients.findSubscribers TOPIC recipients
    ++ flat_map contribution answered in
  forallb (fun entry => negb (Js.isString entry)) resolved = true
  /\ MapTriggerRecipients.findTopics TOPIC resolved = [].
Proof.
  cbn zeta.
  assert (Hall : forall entry,
             In entry (MapTriggerRecipients.findSubscribers TOPIC recipients
                       ++ flat_map contribution answered) ->
             Js.isString entry = false
             /\ MapTriggerRecipients.isNotTopic TOPIC entry = true).
  { intros entry Hin. apply in_app_or in Hin. destruct Hin as [Hin | Hin].
    - unfold MapTriggerRecipients.findSubscribers in Hin.
      apply in_map_iff in Hin. destruct Hin as (recipient & <- & Hin).
      apply filter_In in Hin. destruct Hin as [_ Hdirect].
      destruct (isNotTopic_mapSubscriber TOPIC recipient Hdirect). now split.
    - pose proof (contribution_entries answered) as Hshape.
      rewrite Forall_forall in Hshape.
      destruct (Hshape entry Hin) as [member ->]. split; reflexivity. }
  split.
  - apply forallb_forall. intros entry Hin.
    destruct (Hall entry Hin) as [Hs _]. now rewrite Hs.
  - unfold MapTriggerRecipients.findTopics.
    match goal with |- filter ?f ?l = [] =>
      destruct (filter f l) as [| x xs] eqn:Hf; [reflexivity | exfalso] end.
    assert (Hx : In x (x :: xs)) by now left.
    rewrite <- Hf in Hx. apply filter_In in Hx. destruct Hx as [Hin Htopic].
    destruct (Hall x Hin) as [_ Hnot].
    rewrite isNotTopic_negb_isTopic, Htopic in Hnot. discriminate.
Qed.

(** X9 — what [execute] returns needs no further resolution: it holds no
    bare id and no topic reference, so handing it back to [execute], with
    any collaborators and in any world, calls nobody and returns it as it
    is. *)
Theorem execute_output_is_resolved TOPIC ERROR CODE this command w :
  exists resolved,
    fst (MapTriggerRecipients.execute TOPIC ERROR CODE this command w)
    = Normal resolved
    /\ forallb (fun entry => negb (Js.isString entry)) resolved = true
    /\ MapTriggerRecipients.findTopics TOPIC resolved = []
    /\ forall this' w',
         MapTriggerRecipients.execute TOPIC ERROR CODE this'
           (withRecipients command (Js.Arr resolved)) w'
         = (Normal resolved, w').
Proof.
  pose proof (execute_run TOPIC ERROR CODE this command w) as H.
  cbn zeta in H. destruct H as (Hr & _).
  eexists. split; [exact Hr |].
  match goal with |- forallb _ (?a ++ flat_map contribution ?b) = true /\ _ =>
    pose proof (resolved_entries TOPIC
                  (asList (MapTriggerRecipientsCommand.recipients command)) b) as He
  end.
  cbn zeta in He. destruct He as [Hobjects Hnone].
  split; [exact Hobjects | split; [exact Hnone |]].
  intros this' w'.
  rewrite execute_on_plain_list by exact Hnone.
  now rewrite (mapSubscriber_fixes_objects _ Hobjects).
Qed.

Lemma answers_from_resolver resolver (commands : list GetTopicSubscribersCommand.t) :
  forall history answer,
    In answer (answers resolver history commands) ->
    exists history' command,
      answer = GetTopicSubscribersUseCase.execute resolver history' command.
Proof.
  induction commands as [| c cs IH]; intros history answer Hin; [contradiction |].
  cbn [answers] in Hin. destruct Hin as [<- | Hin]; [now eexists; eexists |].
  now apply IH in Hin.
Qed.

Lemma failedTopics_none (topics : list Js.value) :
  forall answered,
    (forall answer, In answer answered -> isThrow answer = false) ->
    failedTopics topics answered = [].
Proof.
  unfold failedTopics.
  induction topics as [| t ts IH]; intros [| a rest] Hall; try reflexivity.
  cbn [combine filter snd].
  rewrite (Hall a) by now left.
  apply IH. intros answer Hin. apply Hall. now right.
Qed.

Lemma skipn_length_app {A} (old new : list A) :
  skipn (List.length old) (old ++ new) = new.
Proof.
  rewrite skipn_app, skipn_all, Nat.sub_diag. reflexivity.
Qed.

Lemma failedTopics_as_lookups ERROR CODE transactionId environmentId
    organizationId userId (topics : list Js.value) :
  forall answered,
    map (failureLogOf ERROR CODE transactionId environmentId organizationId userId)
        (failedTopics topics answered)
    = map (fun lookup =>
             CreateLogCommand.create transactionId ERROR
               (GetTopicSubscribersCommand.environmentId lookup)
               (GetTopicSubscribersCommand.organizationId lookup)
               "Failed retrieving topic subscribers"
               (GetTopicSubscribersCommand.userId lookup) CODE
               (Js.Obj [("topicId", GetTopicSubscribersCommand.topicId lookup)]))
          (failedLookups
             (map (commandOf environmentId organizationId userId) topics)
             answered).
Proof.
  unfold failedTopics, failedLookups.
  induction topics as [| t ts IH]; intros [| a rest]; try reflexivity.
  cbn [map combine filter snd].
  destruct (isThrow a); cbn [map fst]; now rewrite IH.
Qed.

Lemma answers_stable resolver (commands : list GetTopicSubscribersCommand.t) :
  (forall h1 h2 c,
      GetTopicSubscribersUseCase.execute resolver h1 c
      = GetTopicSubscribersUseCase.execute resolver h2 c) ->
  forall history,
    answers resolver history commands
    = map (GetTopicSubscribersUseCase.execute resolver []) commands.
Proof.
  intros Hstable.
  induction commands as [| c cs IH]; intros history; [reflexivity |].
  cbn [answers map]. rewrite IH. f_equal. apply Hstable.
Qed.

(** X10 — with a resolver that finds every topic, [execute] writes no
    log record and prints nothing. *)
Theorem all_topics_found_no_log TOPIC ERROR CODE this command w :
  (forall history lookup,
      isThrow (GetTopicSubscribersUseCase.execute
                 (MapTriggerRecipients.getTopicSubscribers this) history lookup)
      = false) ->
  let r := MapTriggerRecipients.execute TOPIC ERROR CODE this command w in
  createLogLog (snd r) = createLogLog w
  /\ consoleLog (snd r) = consoleLog w.
Proof.
  intros Hfound. cbn zeta.
  pose proof (execute_run TOPIC ERROR CODE this command w) as H.
  pose proof (execute_reactions TOPIC ERROR CODE this command w) as K.
  cbn zeta in H, K. destruct H as (_ & _ & Hl & _). destruct K as [Hc _].
  rewrite Hl, Hc.
  rewrite failedTopics_none.
  - cbn. now rewrite !app_nil_r.
  - intros answer Hin. apply answers_from_resolver in Hin.
    destruct Hin as (history' & lookup & ->). apply Hfound.
Qed.


(** X12 — [execute] never reaches the workflow engine or the id
    generator: no dispatch, no validation, no identifier handed out. *)
Theorem execute_never_dispatches TOPIC ERROR CODE this command w :
  let r := MapTriggerRecipients.execute TOPIC ERROR CODE this command w in
  triggerEventLog (snd r) = triggerEventLog w
  /\ triggerEventToAllLog (snd r) = triggerEventToAllLog w
  /\ uuidLog (snd r) = uuidLog w.
Proof.
  cbn zeta.
  pose proof (execute_run TOPIC ERROR CODE this command w) as H.
  cbn zeta in H. destruct H as (_ & _ & _ & Hu & Ht & Ha).
  repeat split; assumption.
Qed.

(** X13 — every log record written during a run belongs to a lookup the
    resolver rejected during that run, in the same order, and names the very
    topic id and tenant the resolver was asked about, with the transaction
    id of the command. *)
Theorem failure_logs_match_failed_lookups TOPIC ERROR CODE this command w :
  let r := MapTriggerRecipients.execute TOPIC ERROR CODE this command w in
  let lookups :=
    skipn (List.length (getTopicSubscribersLog w)) (getTopicSubscribersLog (snd r)) in
  let answered :=
    answers (MapTriggerRecipients.getTopicSubscribers this)
            (getTopicSubscribersLog w) lookups in
  skipn (List.length (createLogLog w)) (createLogLog (snd r))
  = map (fun lookup =>
           CreateLogCommand.create
             (MapTriggerRecipientsCommand.transactionId command) ERROR
             (GetTopicSubscribersCommand.environmentId lookup)
             (GetTopicSubscribersCommand.organizationId lookup)
             "Failed retrieving topic subscribers"
             (GetTopicSubscribersCommand.userId lookup) CODE
             (Js.Obj [("topicId", GetTopicSubscribersCommand.topicId lookup)]))
        (failedLookups lookups answered).
Proof.
  cbn zeta.
  pose proof (execute_run TOPIC ERROR CODE this command w) as H.
  cbn zeta in H. destruct H as (_ & Hg & Hl & _).
  rewrite Hg, Hl, !skipn_length_app.
  apply failedTopics_as_lookups.
Qed.

(** With a resolver whose answers do not depend on the calls made before,
    each topic contributes what the resolver answers for it. *)
Lemma execute_stable_run TOPIC ERROR CODE this command w :
  (forall h1 h2 lookup,
      GetTopicSubscribersUseCase.execute
        (MapTriggerRecipients.getTopicSubscribers this) h1 lookup
      = GetTopicSubscribersUseCase.execute
          (MapTriggerRecipients.getTopicSubscribers this) h2 lookup) ->
  fst (MapTriggerRecipients.execute TOPIC ERROR CODE this command w)
  = Normal
      (MapTriggerRecipients.findSubscribers TOPIC
         (asList (MapTriggerRecipientsCommand.recipients command))
       ++ flat_map
            (fun topic =>
               contribution
                 (GetTopicSubscribersUseCase.execute
                    (MapTriggerRecipients.getTopicSubscribers this) []
                    (commandOf
                       (MapTriggerRecipientsCommand.environmentId command)
                       (MapTriggerRecipientsCommand.organizationId command)
                       (MapTriggerRecipientsCommand.userId command) topic)))
            (MapTriggerRecipients.findTopics TOPIC
               (asList (MapTriggerRecipientsCommand.recipients command)))).
Proof.
  intros Hstable.
  pose proof (execute_run TOPIC ERROR CODE this command w) as H.
  cbn zeta in H. destruct H as (Hr & _).
  rewrite Hr, (answers_stable _ _ Hstable).
  rewrite !flat_map_concat_map, !map_map. reflexivity.
Qed.

(** X14 — with a resolver whose answers do not depend on the calls made
    before, the result of [execute] is the mapped directs followed, topic by
    topic in input order, by what the resolver answers for that topic — the
    same in every world, so resolving twice gives the same list. *)
Theorem stable_resolver_same_result TOPIC ERROR CODE this command w :
  let resolver := MapTriggerRecipients.getTopicSubscribers this in
  (forall h1 h2 lookup,
      GetTopicSubscribersUseCase.execute resolver h1 lookup
      = GetTopicSubscribersUseCase.execute resolver h2 lookup) ->
  let recipients := asList (MapTriggerRecipientsCommand.recipients command) in
  let cmd :=
    commandOf (MapTriggerRecipientsCommand.environmentId command)
              (MapTriggerRecipientsCommand.organizationId command)
              (MapTriggerRecipientsCommand.userId command) in
  let r := MapTriggerRecipients.execute TOPIC ERROR CODE this command w in
  fst r
  = Normal
      (MapTriggerRecipients.findSubscribers TOPIC recipients
       ++ flat_map
            (fun topic =>
               contribution
                 (GetTopicSubscribersUseCase.execute resolver [] (cmd topic)))
            (MapTriggerRecipients.findTopics TOPIC recipients))
  /\ fst (MapTriggerRecipients.execute TOPIC ERROR CODE this command (snd r))
     = fst r.
Proof.
  cbn zeta. intros Hstable.
  split.
  - now apply execute_stable_run.
  - now rewrite !execute_stable_run.
Qed.

(** X17 — with such a resolver, a topic whose lookup is rejected counts
    as if it had not been listed: the result is the one for the recipients
    without it, so the entries of its neighbours neither move nor repeat. *)
Theorem failed_topic_counts_as_absent
    TOPIC ERROR CODE this command (before : list Js.value) (topic : Js.value)
    (after : list Js.value) (error : Js.value) (w w' : World) :
  let resolver := MapTriggerRecipients.getTopicSubscribers this in
  (forall h1 h2 lookup,
      GetTopicSubscribersUseCase.execute resolver h1 lookup
      = GetTopicSubscribersUseCase.execute resolver h2 lookup) ->
  MapTriggerRecipients.isTopic TOPIC topic = true ->
  GetTopicSubscribersUseCase.execute resolver []
    (commandOf (MapTriggerRecipientsCommand.environmentId command)
               (MapTriggerRecipientsCommand.organizationId command)
               (MapTriggerRecipientsCommand.userId command) topic)
  = Throw error ->
  fst (MapTriggerRecipients.execute TOPIC ERROR CODE this
         (withRecipients command (Js.Arr (before ++ topic :: after))) w)
  = fst (MapTriggerRecipients.execute TOPIC ERROR CODE this
           (withRecipients command (Js.Arr (before ++ after))) w').
Proof.
  cbn zeta. intros Hstable Htopic Hfail.
  rewrite !execute_stable_run by exact Hstable.
  cbn [withRecipients MapTriggerRecipientsCommand.recipients
       MapTriggerRecipientsCommand.environmentId
       MapTriggerRecipientsCommand.organizationId
       MapTriggerRecipientsCommand.userId asList].
  unfold MapTriggerRecipients.findSubscribers, MapTriggerRecipients.findTopics.
  rewrite !filter_app. cbn [filter].
  rewrite isNotTopic_negb_isTopic, Htopic. cbn [negb].
  rewrite !flat_map_app. cbn [flat_map]. rewrite Hfail. reflexivity.
Qed.

(** X18 — [execute] sees the recipients only through their two
    sub-lists: recipient lists with the same directs in the same order and
    the same topics in the same order are resolved alike, call for call. *)
Theorem execute_depends_on_partition
    TOPIC ERROR CODE this command (first second : list Js.value) :
  filter (MapTriggerRecipients.isNotTopic TOPIC) first
  = filter (MapTriggerRecipients.isNotTopic TOPIC) second ->
  MapTriggerRecipients.findTopics TOPIC first
  = MapTriggerRecipients.findTopics TOPIC second ->
  MapTriggerRecipients.execute TOPIC ERROR CODE this
    (withRecipients command (Js.Arr first))
  = MapTriggerRecipients.execute TOPIC ERROR CODE this
      (withRecipients command (Js.Arr second)).
Proof.
  intros Hdirects Htopics.
  rewrite !execute_asList. cbn zeta.
  cbn [withRecipients MapTriggerRecipientsCommand.recipients
       MapTriggerRecipientsCommand.transactionId
       MapTriggerRecipientsCommand.environmentId
       MapTriggerRecipientsCommand.organizationId
       MapTriggerRecipientsCommand.userId asList].
  unfold MapTriggerRecipients.getSubscribersFromAllTopics,
         MapTriggerRecipients.findSubscribers.
  now rewrite Hdirects, Htopics.
Qed.

(** ** Further properties of the two triggers *)

Lemma or_object_truthy (value : Js.value) :
  Js.truthy (Js.or value (Js.Obj [])) = true.
Proof.
  unfold Js.or. destruct (Js.truthy value) eqn:H; [exact H | reflexivity].
Qed.

Lemma mapSubscribers_no_bare_id (values : list Js.value) :
  forallb (fun entry => negb (Js.isString entry))
          (EventsController.mapSubscribers values) = true.
Proof.
  apply forallb_forall. intros entry Hin.
  unfold EventsController.mapSubscribers in Hin.
  apply in_map_iff in Hin. destruct Hin as (value & <- & _).
  destruct value; reflexivity.
Qed.

Lemma mapActor_never_bare_id (actor : Js.value) :
  Js.isString (EventsController.mapActor actor) = false.
Proof.
  unfold EventsController.mapActor.
  destruct (Js.truthy actor); [| reflexivity].
  destruct actor; reflexivity.
Qed.

(** X15 — once the transaction id is accepted, the single trigger makes
    exactly one dispatch and answers what the engine answers to it, a value
    or a rejection alike.  The command carries the caller's tenant, the
    body's name and payload and the settled transaction id; its overrides
    are never falsy; its recipients hold no bare id and are no more than the
    request listed; its actor is no bare id.  The broadcast engine is not
    called. *)
Theorem trigger_dispatches_well_formed_command
    SUBSCRIBER uuidv4 this user (body : TriggerEventRequestDto.t) (w : World) :
  let organizationId := IJwtPayload.organizationId user in
  let environmentId := IJwtPayload.environmentId user in
  let tid :=
    settledTransactionId uuidv4 (TriggerEventRequestDto.transactionId body) w in
  let validation := CallValidate tid organizationId environmentId in
  TriggerEvent.validateTransactionIdProperty
    (EventsController.triggerEvent this) (triggerEventLog w)
    tid organizationId environmentId = Normal tt ->
  let r := EventsController.trackEvent SUBSCRIBER uuidv4 this user body w in
  exists command,
    triggerEventLog (snd r)
    = triggerEventLog w ++ [validation; CallExecute command]
    /\ fst r = TriggerEvent.execute (EventsController.triggerEvent this)
                 (triggerEventLog w ++ [validation]) command
    /\ triggerEventToAllLog (snd r) = triggerEventToAllLog w
    /\ TriggerEventCommand.userId command = IJwtPayload._id user
    /\ TriggerEventCommand.environmentId command = environmentId
    /\ TriggerEventCommand.organizationId command = organizationId
    /\ TriggerEventCommand.identifier command = TriggerEventRequestDto.name body
    /\ TriggerEventCommand.payload command = TriggerEventRequestDto.payload body
    /\ TriggerEventCommand.transactionId command = tid
    /\ Js.truthy (TriggerEventCommand.overrides command) = true
    /\ forallb (fun entry => negb (Js.isString entry))
               (TriggerEventCommand.to command) = true
    /\ List.length (TriggerEventCommand.to command)
       <= List.length (asList (TriggerEventRequestDto.to body))
    /\ Js.isString (TriggerEventCommand.actor command) = false.
Proof.
  cbn zeta. intros Hvalid.
  pose proof (trackEvent_run SUBSCRIBER uuidv4 this user body w) as H.
  cbn zeta in H. destruct H as (_ & Ha & _ & _ & Hv).
  rewrite Hvalid in Hv. destruct Hv as [Hr Hl].
  eexists. split; [exact Hl |]. split; [exact Hr |]. split; [exact Ha |].
  unfold dispatchedCommand.
  cbn [TriggerEventCommand.userId TriggerEventCommand.environmentId
       TriggerEventCommand.organizationId TriggerEventCommand.identifier
       TriggerEventCommand.payload TriggerEventCommand.transactionId
       TriggerEventCommand.overrides TriggerEventCommand.to
       TriggerEventCommand.actor].
  repeat split.
  - apply or_object_truthy.
  - apply mapSubscribers_no_bare_id.
  - unfold EventsController.mapSubscribers. rewrite length_map.
    rewrite aggregateSubscribers_asList. apply filter_length_le.
  - apply mapActor_never_bare_id.
Qed.

(** X16 — once the transaction id is accepted, the broadcast trigger
    makes exactly one call to the broadcast engine and answers what that
    engine answers, a value or a rejection alike.  The command carries the
    caller's tenant, the body's name and payload and the settled transaction
    id; its overrides are never falsy and its actor is no bare id. *)
Theorem broadcast_dispatches_well_formed_command
    uuidv4 this user (body : TriggerEventToAllRequestDto.t) (w : World) :
  let organizationId := IJwtPayload.organizationId user in
  let environmentId := IJwtPayload.environmentId user in
  let tid :=
    settledTransactionId uuidv4 (TriggerEventToAllRequestDto.transactionId body) w in
  TriggerEvent.validateTransactionIdProperty
    (EventsController.triggerEvent this) (triggerEventLog w)
    tid organizationId environmentId = Normal tt ->
  let r := EventsController.trackEventToAll uuidv4 this user body w in
  exists command,
    triggerEventToAllLog (snd r) = triggerEventToAllLog w ++ [command]
    /\ fst r = TriggerEventToAll.execute (EventsController.triggerEventToAll this)
                 (triggerEventToAllLog w) command
    /\ TriggerEventToAllCommand.userId command = IJwtPayload._id user
    /\ TriggerEventToAllCommand.environmentId command = environmentId
    /\ TriggerEventToAllCommand.organizationId command = organizationId
    /\ TriggerEventToAllCommand.identifier command
       = TriggerEventToAllRequestDto.name body
    /\ TriggerEventToAllCommand.payload command
       = TriggerEventToAllRequestDto.payload body
    /\ TriggerEventToAllCommand.transactionId command = tid
    /\ Js.truthy (TriggerEventToAllCommand.overrides command) = true
    /\ Js.isString (TriggerEventToAllCommand.actor command) = false.
Proof.
  cbn zeta. intros Hvalid.
  pose proof (trackEventToAll_run uuidv4 this user body w) as H.
  cbn zeta in H. destruct H as (_ & _ & _ & _ & Hv).
  rewrite Hvalid in Hv. destruct Hv as [Hr Ha].
  eexists. split; [exact Ha |]. split; [exact Hr |].
  unfold broadcastCommand.
  cbn [TriggerEventToAllCommand.userId TriggerEventToAllCommand.environmentId
       TriggerEventToAllCommand.organizationId TriggerEventToAllCommand.identifier
       TriggerEventToAllCommand.payload TriggerEventToAllCommand.transactionId
       TriggerEventToAllCommand.overrides TriggerEventToAllCommand.actor].
  repeat split.
  - apply or_object_truthy.
  - apply mapActor_never_bare_id.
Qed.

(** ** The further properties on sample requests *)

Section MoreWitnesses.

Import Sample.
Import MoreSamples.

(** Two bare ids. *)
Lemma bare_ids_kept_in_order_witness :
  let ids := [Js.Str "u1"; Js.Str "u2"] in
  let request := body Js.Undefined Js.Undefined in
  forallb Js.isString ids = true
  /\ EventsController.aggregateSubscribers SUBSCRIBER (withTo request (Js.Arr ids))
     = ids
  /\ EventsController.mapSubscribers
       (EventsController.aggregateSubscribers SUBSCRIBER
          (withTo request (Js.Arr ids)))
     = [Js.Obj [("subscriberId", Js.Str "u1")];
        Js.Obj [("subscriberId", Js.Str "u2")]]
  /\ MapTriggerRecipients.findSubscribers TOPIC ids
     = [Js.Obj [("subscriberId", Js.Str "u1")];
        Js.Obj [("subscriberId", Js.Str "u2")]]
  /\ MapTriggerRecipients.findTopics TOPIC ids = [].
Proof.
  cbn zeta. split; [reflexivity |].
  exact (bare_ids_kept_in_order SUBSCRIBER TOPIC (body Js.Undefined Js.Undefined)
           [Js.Str "u1"; Js.Str "u2"] eq_refl).
Defined.

(** A bare id, a topic and a tagged subscriber. *)
Lemma trigger_list_has_no_topic_witness :
  let request :=
    body (Js.Arr [Js.Str "u1"; topic "t1";
                  Js.Obj [("type", Js.Str SUBSCRIBER); ("subscriberId", Js.Str "u2")]])
         Js.Undefined in
  (SUBSCRIBER =? TOPIC) = false
  /\ (TOPIC =? "") = false
  /\ forallb (fun element => negb (MapTriggerRecipients.isTopic TOPIC element))
             (EventsController.aggregateSubscribers SUBSCRIBER request)
     = true.
Proof.
  cbn zeta. split; [reflexivity | split; [reflexivity |]].
  exact (trigger_list_has_no_topic SUBSCRIBER TOPIC
           (body (Js.Arr [Js.Str "u1"; topic "t1";
                          Js.Obj [("type", Js.Str SUBSCRIBER);
                                  ("subscriberId", Js.Str "u2")]])
                 Js.Undefined)
           (proj1 (String.eqb_neq SUBSCRIBER TOPIC) eq_refl)
           (proj1 (String.eqb_neq TOPIC "") eq_refl)).
Defined.

(** The same request: the trigger dispatches from the direct part. *)
Lemma trigger_list_is_direct_part_witness :
  let request :=
    body (Js.Arr [Js.Str "u1"; topic "t1";
                  Js.Obj [("type", Js.Str SUBSCRIBER); ("subscriberId", Js.Str "u2")]])
         Js.Undefined in
  forallb (withinEnum SUBSCRIBER TOPIC) (asList (TriggerEventRequestDto.to request))
  = true
  /\ EventsController.mapSubscribers
       (EventsController.aggregateSubscribers SUBSCRIBER request)
     = MapTriggerRecipients.findSubscribers TOPIC
         (asList (TriggerEventRequestDto.to request)).
Proof.
  cbn zeta. split; [reflexivity |].
  exact (trigger_list_is_direct_part SUBSCRIBER TOPIC
           (body (Js.Arr [Js.Str "u1"; topic "t1";
                          Js.Obj [("type", Js.Str SUBSCRIBER);
                                  ("subscriberId", Js.Str "u2")]])
                 Js.Undefined)
           (proj1 (String.eqb_neq SUBSCRIBER TOPIC) eq_refl)
           (proj1 (String.eqb_neq TOPIC "") eq_refl) eq_refl).
Defined.

(** A bare id and a subscriber object, no topic. *)
Lemma execute_without_topics_is_pure_witness :
  let recipients := [Js.Str "u1"; Js.Obj [("subscriberId", Js.Str "u2")]] in
  MapTriggerRecipients.findTopics TOPIC recipients = []
  /\ MapTriggerRecipients.execute TOPIC ERROR TOPIC_SUBSCRIBERS_ERROR mapper
       (command (Js.Arr recipients)) emptyWorld
     = (Normal [Js.Obj [("subscriberId", Js.Str "u1")];
                Js.Obj [("subscriberId", Js.Str "u2")]],
        emptyWorld).
Proof.
  cbn zeta. split; [reflexivity |].
  exact (execute_without_topics_is_pure TOPIC ERROR TOPIC_SUBSCRIBERS_ERROR mapper
           (command (Js.Arr [Js.Str "u1"; Js.Obj [("subscriberId", Js.Str "u2")]]))
           emptyWorld eq_refl).
Defined.

(** Two topics, both found. *)
Lemma all_topics_found_no_log_witness :
  let r :=
    MapTriggerRecipients.execute TOPIC ERROR TOPIC_SUBSCRIBERS_ERROR openMapper
      (command (Js.Arr [topic "t1"; topic "t2"])) emptyWorld in
  (forall history lookup,
      isThrow (GetTopicSubscribersUseCase.execute openResolver history lookup)
      = false)
  /\ createLogLog (snd r) = []
  /\ consoleLog (snd r) = [].
Proof.
  cbn zeta. split; [reflexivity |].
  exact (all_topics_found_no_log TOPIC ERROR TOPIC_SUBSCRIBERS_ERROR openMapper
           (command (Js.Arr [topic "t1"; topic "t2"])) emptyWorld
           (fun _ _ => eq_refl)).
Defined.

(** A bare id, then the topics [t1], [t2] (not found) and [t3]. *)
Lemma stable_resolver_same_result_witness :
  let r :=
    MapTriggerRecipients.execute TOPIC ERROR TOPIC_SUBSCRIBERS_ERROR mapper
      (command (Js.Arr [Js.Str "u1"; topic "t1"; topic "t2"; topic "t3"]))
      emptyWorld in
  (forall h1 h2 lookup,
      GetTopicSubscribersUseCase.execute resolver h1 lookup
      = GetTopicSubscribersUseCase.execute resolver h2 lookup)
  /\ fst r = Normal [Js.Obj [("subscriberId", Js.Str "u1")];
                     Js.Obj [("subscriberId", Js.Str "a")];
                     Js.Obj [("subscriberId", Js.Str "b")];
                     Js.Obj [("subscriberId", Js.Str "c")]]
  /\ fst (MapTriggerRecipients.execute TOPIC ERROR TOPIC_SUBSCRIBERS_ERROR mapper
            (command (Js.Arr [Js.Str "u1"; topic "t1"; topic "t2"; topic "t3"]))
            (snd r))
     = fst r.
Proof.
  cbn zeta. split; [reflexivity |].
  exact (stable_resolver_same_result TOPIC ERROR TOPIC_SUBSCRIBERS_ERROR mapper
           (command (Js.Arr [Js.Str "u1"; topic "t1"; topic "t2"; topic "t3"]))
           emptyWorld (fun _ _ _ => eq_refl)).
Defined.

(** The topic [t2], not found, between [t1] and [t3]. *)
Lemma failed_topic_counts_as_absent_witness :
  (forall h1 h2 lookup,
      GetTopicSubscribersUseCase.execute resolver h1 lookup
      = GetTopicSubscribersUseCase.execute resolver h2 lookup)
  /\ MapTriggerRecipients.isTopic TOPIC (topic "t2") = true
  /\ GetTopicSubscribersUseCase.execute resolver []
       (commandOf "env-1" "org-1" "user-1" (topic "t2"))
     = Throw (Js.Str "topic not found")
  /\ fst (MapTriggerRecipients.execute TOPIC ERROR TOPIC_SUBSCRIBERS_ERROR mapper
            (withRecipients (command Js.Undefined)
               (Js.Arr ([topic "t1"] ++ topic "t2" :: [topic "t3"])))
            emptyWorld)
     = fst (MapTriggerRecipients.execute TOPIC ERROR TOPIC_SUBSCRIBERS_ERROR mapper
              (withRecipients (command Js.Undefined)
                 (Js.Arr ([topic "t1"] ++ [topic "t3"])))
              emptyWorld).
Proof.
  split; [reflexivity | split; [reflexivity | split; [reflexivity |]]].
  exact (failed_topic_counts_as_absent TOPIC ERROR TOPIC_SUBSCRIBERS_ERROR mapper
           (command Js.Undefined) [topic "t1"] (topic "t2") [topic "t3"]
           (Js.Str "topic not found") emptyWorld emptyWorld
           (fun _ _ _ => eq_refl) eq_refl eq_refl).
Defined.

(** A topic listed before or after a bare id. *)
Lemma execute_depends_on_partition_witness :
  let first := [topic "t1"; Js.Str "u1"] in
  let second := [Js.Str "u1"; topic "t1"] in
  filter (MapTriggerRecipients.isNotTopic TOPIC) first
  = filter (MapTriggerRecipients.isNotTopic TOPIC) second
  /\ MapTriggerRecipients.findTopics TOPIC first
     = MapTriggerRecipients.findTopics TOPIC second
  /\ MapTriggerRecipients.execute TOPIC ERROR TOPIC_SUBSCRIBERS_ERROR mapper
       (withRecipients (command Js.Undefined) (Js.Arr first))
     = MapTriggerRecipients.execute TOPIC ERROR TOPIC_SUBSCRIBERS_ERROR mapper
         (withRecipients (command Js.Undefined) (Js.Arr second)).
Proof.
  cbn zeta. split; [reflexivity | split; [reflexivity |]].
  exact (execute_depends_on_partition TOPIC ERROR TOPIC_SUBSCRIBERS_ERROR mapper
           (command Js.Undefined) [topic "t1"; Js.Str "u1"]
           [Js.Str "u1"; topic "t1"] eq_refl eq_refl).
Defined.

(** A trigger for two bare ids with the actor [u9]. *)
Lemma trigger_dispatches_well_formed_command_witness :
  let request := body (Js.Arr [Js.Str "u1"; Js.Str "u2"]) (Js.Str "u9") in
  let r :=
    EventsController.trackEvent SUBSCRIBER uuidv4 controller user request
      emptyWorld in
  TriggerEvent.validateTransactionIdProperty triggerEvent []
    (Js.Str "tx-1") "org-1" "env-1" = Normal tt
  /\ exists sent,
       triggerEventLog (snd r)
       = [CallValidate (Js.Str "tx-1") "org-1" "env-1"; CallExecute sent]
       /\ TriggerEventCommand.transactionId sent = Js.Str "tx-1"
       /\ Js.truthy (TriggerEventCommand.overrides sent) = true
       /\ List.length (TriggerEventCommand.to sent) <= 2
       /\ Js.isString (TriggerEventCommand.actor sent) = false.
Proof.
  cbn zeta. split; [reflexivity |].
  destruct (trigger_dispatches_well_formed_command SUBSCRIBER uuidv4 controller
              user (body (Js.Arr [Js.Str "u1"; Js.Str "u2"]) (Js.Str "u9"))
              emptyWorld eq_refl)
    as (sent & Hlog & _ & _ & _ & _ & _ & _ & _ & Htid & Hoverrides & _ & Hlen
        & Hactor).
  exists sent.
  split; [exact Hlog | split; [exact Htid | split; [exact Hoverrides |]]].
  split; [exact Hlen | exact Hactor].
Defined.

(** A broadcast with the actor [u9]. *)
Lemma broadcast_dispatches_well_formed_command_witness :
  let request :=
    {| TriggerEventToAllRequestDto.name := Js.Str "welcome";
       TriggerEventToAllRequestDto.payload := Js.Obj [];
       TriggerEventToAllRequestDto.overrides := Js.Undefined;
       TriggerEventToAllRequestDto.actor := Js.Str "u9";
       TriggerEventToAllRequestDto.transactionId := Js.Undefined |} in
  let r :=
    EventsController.trackEventToAll uuidv4 controller user request emptyWorld in
  TriggerEvent.validateTransactionIdProperty triggerEvent []
    (Js.Str (uuidv4 [])) "org-1" "env-1" = Normal tt
  /\ exists sent,
       triggerEventToAllLog (snd r) = [sent]
       /\ TriggerEventToAllCommand.transactionId sent = Js.Str (uuidv4 [])
       /\ Js.truthy (TriggerEventToAllCommand.overrides sent) = true.
Proof.
  cbn zeta. split; [reflexivity |].
  destruct (broadcast_dispatches_well_formed_command uuidv4 controller user
              {| TriggerEventToAllRequestDto.name := Js.Str "welcome";
                 TriggerEventToAllRequestDto.payload := Js.Obj [];
                 TriggerEventToAllRequestDto.overrides := Js.Undefined;
                 TriggerEventToAllRequestDto.actor := Js.Str "u9";
                 TriggerEventToAllRequestDto.transactionId := Js.Undefined |}
              emptyWorld eq_refl)
    as (sent & Hlog & _ & _ & _ & _ & _ & _ & Htid & Hoverrides & _).
  exists sent. split; [exact Hlog | split; [exact Htid | exact Hoverrides]].
Defined.

End MoreWitnesses.
